(** * projc: a scaffolder for C projects

    A shallow embedding of [src/projc.c] and the properties of its
    specification.

    The program is modelled the way it is written:
    - a C string is a [string] without NUL; an array of [char] is a [string]
      that may hold NUL bytes and is read back up to the first one ([cstr]);
    - the file system is a finite map from path names to nodes, the standard
      output a string, both threaded through a state monad;
    - what the C standard leaves undefined and the program can reach (writing
      past an array, [fclose] on a null stream) is a [fault] of that monad;
    - what the C standard leaves open is a parameter: the bytes an automatic
      array holds before it is written ([junk]), whether two string literals
      with the same text are one object ([pooling]), the platform ([os]) and
      the path canonicalisation of the operating system ([canon]).

    Of the operating system this much is assumed: a path names what was
    made under that spelling; a directory or file can be made where the
    directory it goes into exists; a text is written as it is passed to
    [fprintf]. Sizes are far from the range of [size_t] and are integers. *)

From Stdlib Require Import ZArith Ascii String List Lia.
From stdpp Require Import gmap strings.

Local Open Scope Z_scope.

(** ** Bytes, C strings and arrays of char *)

Module CString.

Definition NUL : ascii := "000"%char.

(** The value of a [char] converted to [unsigned char], and back. *)
Definition byte (c : ascii) : Z := Z.of_N (N_of_ascii c).
Definition chr (z : Z) : ascii := ascii_of_N (Z.to_N (z mod 256)).

(** The C string an array holds: its bytes before the first NUL. An array
    is modelled by its bytes up to the last one written; the bytes after
    them read as NUL. *)
Fixpoint cstr (buf : string) : string :=
  match buf with
  | EmptyString => EmptyString
  | String c rest => if Ascii.eqb c NUL then EmptyString else String c (cstr rest)
  end.

Definition strlen (buf : string) : nat := String.length (cstr buf).

(** The length of a C string, as a [size_t]. *)
Definition len (s : string) : Z := Z.of_nat (String.length s).
Arguments len : simpl never.

(** [buf[i]] *)
Fixpoint peek (buf : string) (i : nat) : ascii :=
  match buf, i with
  | EmptyString, _ => NUL
  | String c _, O => c
  | String _ rest, S j => peek rest j
  end.

(** [buf[i] = c] *)
Fixpoint poke (buf : string) (i : nat) (c : ascii) : string :=
  match i, buf with
  | O, EmptyString => String c EmptyString
  | O, String _ rest => String c rest
  | S j, EmptyString => String NUL (poke EmptyString j c)
  | S j, String b rest => String b (poke rest j c)
  end.

(** A C string has no NUL inside. *)
Fixpoint nul_free (s : string) : Prop :=
  match s with
  | EmptyString => True
  | String c rest => c <> NUL /\ nul_free rest
  end.

(** [for (int i = strt; i < ssize; i++) str[i] = 0x00;] *)
Definition strclr (str : string) (strt ssize : nat) : string :=
  fold_left (fun s i => poke s i NUL) (seq strt (ssize - strt)) str.

(** [strcat(dest, src)]: [src] is copied over the terminator of [dest]. *)
Definition strcat (dest src : string) : string := cstr dest +:+ src.

(** The index at which the backwards loop of [strslice] stops:
    [for (stop; stop >= 0; stop--) if (str[stop] == spr[0]) break;]
    [None] stands for [stop == -1]. *)
Fixpoint scan_back (str : string) (c : ascii) (stop : nat) : option nat :=
  if Ascii.eqb (peek str stop) c then Some stop
  else match stop with
       | O => None
       | S k => scan_back str c k
       end.

(** [strslice(dest, str, spr)]: what [dest] holds after the call. With no
    separator in [str] the function only sets its own copy of the pointer
    to NULL and the caller's array is left as it was. *)
Definition strslice (dest str : string) (spr : ascii) : string :=
  let stsize := strlen str in
  match scan_back str spr stsize with
  | None => dest
  | Some stop =>
      fold_left (fun d i => poke d i (peek str (stop + 1 + i)))
                (seq 0 (stsize - stop)) dest
  end.

(** The byte [strupper] stores at one index. The test
    [0x60 < (unsigned char) str[i] < 0x7b] is C's chained comparison: the
    truth value of [0x60 < c], which is 0 or 1, is compared with [0x7b]. *)
Definition strupper_byte (c : ascii) : ascii :=
  if Z.b2z (0x60 <? byte c) <? 0x7b
  then chr (byte c - 0x20)
  else c.

(** [strupper(dest, str)]: what [dest] holds after the call; no terminator
    is written. *)
Definition strupper (dest str : string) : string :=
  fold_left (fun d i => poke d i (strupper_byte (peek str i)))
            (seq 0 (strlen str)) dest.

End CString.
Export CString.

(** ** The machine: file system, standard output, faults *)

Inductive node : Type :=
| Dir
| File (content : string).

Record world : Type := World {
  files : gmap string node;
  stdout : string
}.

(** Behaviour the C standard leaves undefined and the program can reach. *)
Inductive fault : Type :=
| BufferOverrun   (* a write past the end of an array *)
| NullStream.     (* [fclose(NULL)] *)

Inductive result (A : Type) : Type :=
| Ok (a : A)
| Fault (f : fault).
Arguments Ok {A} a.
Arguments Fault {A} f.

(** Computations that read and change the world and may go wrong. *)
Definition M (A : Type) : Type := world -> result (A * world).

Definition ret {A} (a : A) : M A := fun w => Ok (a, w).

Definition bind {A B} (m : M A) (k : A -> M B) : M B :=
  fun w => match m w with
           | Ok (a, w') => k a w'
           | Fault f => Fault f
           end.

Definition crash {A} (f : fault) : M A := fun _ => Fault f.

Notation "'let*' x ':=' m 'in' k" := (bind m (fun x => k))
  (at level 10, x name, m at level 100, k at level 200, only parsing).

(** A loop over the values of its counter, threading the loop state. *)
Fixpoint for_each {S} (counter : list nat) (body : nat -> S -> M S) (s : S) : M S :=
  match counter with
  | [] => ret s
  | i :: rest => let* s' := body i s in for_each rest body s'
  end.

(** *** Platform *)

Inductive os : Type := Windows | Linux.

(** [static const char sep] of either branch of the [#if]. *)
Definition sep (o : os) : ascii :=
  match o with
  | Windows => "092"%char   (* the backslash *)
  | Linux => "/"%char
  end.

(** [PATH_MAX]: [MAX_PATH] of [windows.h], [PATH_MAX] of [linux/limits.h]. *)
Definition PATH_MAX (o : os) : Z :=
  match o with
  | Windows => 260
  | Linux => 4096
  end.

(** What is fixed when the program is built and started:
    - [pooling]: string literals with the same text are one object, so that
      [==] on two of them holds (gcc and clang, MSVC with [/GF]); without
      it every literal is its own object;
    - [canon]: the absolute form the operating system gives a path, if any;
    - [junk]: the bytes of an automatic array, by its name, before the
      program writes to it. *)
Record config : Type := Config {
  platform : os;
  pooling : bool;
  canon : string -> option string;
  junk : string -> string
}.

(** A string literal of the source: where it is written and its text. *)
Record literal : Type := Literal {
  site : nat;
  text : string
}.

(** [a == b] on two pointers to string literals. *)
Definition literal_eqb (cfg : config) (a b : literal) : bool :=
  if pooling cfg then String.eqb (text a) (text b)
  else Nat.eqb (site a) (site b).

(** *** The C library and the operating system

    Path names are compared as they are spelled. The part of a path before
    its last separator names the directory an entry is made in. *)

Fixpoint dir_part (c : ascii) (path : string) : option string :=
  match path with
  | EmptyString => None
  | String a rest =>
      match dir_part c rest with
      | Some d => Some (String a d)
      | None => if Ascii.eqb a c then Some EmptyString else None
      end
  end.

Definition is_dir (fs : gmap string node) (path : string) : bool :=
  match fs !! path with
  | Some Dir => true
  | _ => false
  end.

Definition parent_is_dir (o : os) (fs : gmap string node) (path : string) : bool :=
  match dir_part (sep o) path with
  | Some d => is_dir fs d
  | None => false
  end.

(** [stat(name, &st)]: 0 when [name] exists, -1 otherwise. *)
Definition stat (name : string) : M Z :=
  fun w => Ok (match files w !! name with Some _ => 0 | None => -1 end, w).

(** [CreateDirectory] / [mkdir]: makes the directory when nothing has the
    name and the directory it goes into exists; else the call fails, which
    the program does not look at. *)
Definition os_mkdir (o : os) (name : string) : M unit :=
  fun w => match files w !! name with
           | Some _ => Ok (tt, w)
           | None =>
               if parent_is_dir o (files w) name
               then Ok (tt, World (<[name := Dir]> (files w)) (stdout w))
               else Ok (tt, w)
           end.

(** [fopen(name, "w")]: the stream, named by its file, or NULL. An existing
    file is truncated, a new one needs its directory. *)
Definition fopen_w (o : os) (name : string) : M (option string) :=
  fun w => match files w !! name with
           | Some Dir => Ok (None, w)
           | Some (File _) =>
               Ok (Some name, World (<[name := File ""]> (files w)) (stdout w))
           | None =>
               if parent_is_dir o (files w) name
               then Ok (Some name, World (<[name := File ""]> (files w)) (stdout w))
               else Ok (None, w)
           end.

(** [fprintf(fp, ...)] with the text the format expands to. *)
Definition fprintf (fp : string) (s : string) : M unit :=
  fun w => match files w !! fp with
           | Some (File c) =>
               Ok (tt, World (<[fp := File (c +:+ s)]> (files w)) (stdout w))
           | _ => Ok (tt, w)
           end.

Definition fclose (fp : option string) : M unit :=
  match fp with
  | Some _ => ret tt
  | None => crash NullStream
  end.

(** [printf] and [puts] with the text they print. *)
Definition printf (s : string) : M unit :=
  fun w => Ok (tt, World (files w) (stdout w +:+ s)).

(** [sprintf], [strcpy] or [strcat] leaving [s] and its terminator in an
    array of [size] bytes. *)
Definition store (size : Z) (s : string) : M string :=
  if len s + 1 <=? size then ret s else crash BufferOverrun.

Definition nl : string := String "010"%char "".
Definition tab : string := String "009"%char "".
Definition dquote : string := String "034"%char "".
Definition str (c : ascii) : string := String c "".

(** ** The program *)

(** *** The constant arrays *)

Definition GCC_MAKE_MACROS : string :=
  "IDIR =./include" +:+ nl +:+
  "CC=gcc" +:+ nl +:+
  "CFLAGS=-I$(IDIR)" +:+ nl +:+
  "ODIR=obj" +:+ nl +:+
  "LDIR =./lib" +:+ nl +:+
  "LIBS=" +:+ nl +:+ nl +:+
  "_DEPS = ".

Definition GCC_MAKE_DEPS : string :=
  ".h" +:+ nl +:+
  "DEPS = $(patsubst %,$(IDIR)/%,$(_DEPS))" +:+ nl +:+ nl +:+
  "_OBJ = ".

Definition GCC_MAKE_OBJ : string := ".o ".

Definition GCC_MAKE_OBJ_BUILD : string :=
  ".o" +:+ nl +:+
  "OBJ = $(patsubst %,$(ODIR)/%,$(_OBJ))" +:+ nl +:+ nl +:+
  "$(ODIR)/%.o: %.c $(DEPS)" +:+ nl +:+
  tab +:+ "$(CC) -c -o $@ $< $(CFLAGS)" +:+ nl +:+ nl.

Definition GCC_MAKE_PHONY : string :=
  ": $(OBJ)" +:+ nl +:+
  tab +:+ "gcc -o $@ $^ $(CFLAGS) $(LIBS)" +:+ nl +:+ nl +:+
  ".PHONY: clean" +:+ nl +:+ nl +:+
  "clean:".

(** The string literals [touch] is called with and compares with. *)
Definition touch_dot_h : literal := Literal 1 ".h".
Definition touch_dot_c : literal := Literal 2 ".c".
Definition file_ext : list literal := [Literal 3 ".h"; Literal 4 ".c"].
Definition no_literal : literal := Literal 0 "".

Section Program.

Variable cfg : config.

Abbreviation OS := (platform cfg).
Abbreviation SEP := (str (sep (platform cfg))).
Abbreviation PATHMAX := (PATH_MAX (platform cfg)).

(** [mk_dir] and [exists] of either branch of the [#if]; [exists] is a
    keyword here. *)
Definition mk_dir (name : string) : M unit :=
  let* st := stat name in
  if st =? -1 then os_mkdir OS name else ret tt.

Definition exists_ (name : string) : M Z :=
  let* st := stat name in
  ret (st + 1).

(** [abspath(dest, name)]: the pointer returned ([None] for NULL) and what
    [dest] holds afterwards. *)
Definition abspath (dest name : string) : option string * string :=
  match canon cfg name with
  | Some d => (Some d, d)
  | None => (None, dest)
  end.

(** The text [makefile_create] formats into [make_contents]. *)
Definition make_contents (project : string) : string :=
  GCC_MAKE_MACROS +:+ project +:+ GCC_MAKE_DEPS +:+
  project +:+ GCC_MAKE_OBJ +:+ project +:+ "_test" +:+
  GCC_MAKE_OBJ_BUILD +:+ project +:+ "_app" +:+ GCC_MAKE_PHONY.

(** [make] is written without a test of its length; [make_contents] is
    written once the file is open; [fclose] is reached with the null stream
    when [fopen] fails. *)
Definition makefile_create (makename project dirname : string) : M Z :=
  let* make := store PATHMAX (dirname +:+ SEP +:+ makename) in
  let* e := exists_ make in
  if e =? 0 then
    let* mkfile := fopen_w OS make in
    let* r :=
      match mkfile with
      | None => ret 0
      | Some fp =>
          let* contents := store 432 (make_contents project) in
          let* _ := fprintf fp contents in
          ret 1
      end in
    let* _ := fclose mkfile in
    ret r
  else ret 0.

(** The text [touch] prints into the new file. [ext] is compared as a
    pointer with the literals of [touch]; [tmp] has no terminator written
    after the upper-cased name, and is read up to the first NUL that
    follows. *)
Definition file_text (project : string) (ext : literal) : string :=
  if literal_eqb cfg ext touch_dot_h then
    let tmp := cstr (strupper (junk cfg "tmp") project) in
    "#ifndef " +:+ tmp +:+ "_H" +:+ nl +:+
    "#define " +:+ tmp +:+ "_H" +:+ nl +:+
    "/* Code goes here */" +:+ nl +:+ nl +:+ "#endif"
  else if literal_eqb cfg ext touch_dot_c then
    "#include " +:+ dquote +:+ project +:+ ".h" +:+ dquote +:+ nl +:+ nl +:+
    "/* Code goes here */" +:+ nl +:+ nl
  else
    "/* Project " +:+ project +:+ " */".

(** [r0] is [ret] after the test of the lengths. With the test failed
    [fullpath] is not written, and [exists] is called on what it holds. *)
Definition touch (path project : string) (ext : literal) : M Z :=
  let r0 :=
    if PATHMAX <? len path + len project + len (text ext)
    then 0 else 1 in
  let* fullpath :=
    if r0 =? 0 then ret (cstr (junk cfg "fullpath"))
    else store PATHMAX (path +:+ SEP +:+ project +:+ text ext) in
  let* e := exists_ fullpath in
  if (e =? 0) && negb (r0 =? 0) then
    let* fp := fopen_w OS fullpath in
    let* r :=
      match fp with
      | None => ret 0
      | Some f => let* _ := fprintf f (file_text project ext) in ret r0
      end in
    let* _ := fclose fp in
    ret r
  else ret 0.

Definition touch_wrap (path name dir : string) (ext : literal) : M unit :=
  let* _ := printf ("Creating file " +:+ name +:+ text ext +:+ " in " +:+ dir
                    +:+ " directory..." +:+ nl) in
  let* r := touch path name ext in
  if r =? 0
  then printf ("Failed to create " +:+ name +:+ text ext +:+ " in " +:+ dir +:+ nl)
  else printf (name +:+ text ext +:+ " created in " +:+ dir +:+ nl).

Definition create_dir (dirname destname : string) : M Z :=
  if PATHMAX <? len dirname + len destname then ret 0
  else
    let* destdir := store PATHMAX (dirname +:+ SEP +:+ destname) in
    let* e := exists_ destdir in
    if e =? 0 then let* _ := mk_dir destdir in ret 1
    else ret 0.

(** [tmp] is the state of the loop: each turn clears it after the root and
    its separator and appends [dirs[i]]. *)
Definition create_files (dirname project : string) : M unit :=
  let dirs := ["lib"; "src"; "test"] in
  let* tmp := store PATHMAX (dirname +:+ SEP +:+ nth 0 dirs "") in
  let* _ := touch_wrap tmp project (nth 0 dirs "") (nth 0 file_ext no_literal) in
  let* _ :=
    for_each (seq 0 3)
      (fun i tmp =>
         let tmp := strclr tmp (String.length dirname + 1) (strlen tmp) in
         let* tmp := store PATHMAX (strcat tmp (nth i dirs "")) in
         let* _ :=
           match i with
           | 1%nat =>
               let* tmp2 := store PATHMAX project in
               let* tmp2 := store PATHMAX (strcat tmp2 "_app") in
               touch_wrap tmp tmp2 (nth i dirs "") (nth 1 file_ext no_literal)
           | 2%nat =>
               let* tmp2 := store PATHMAX project in
               let* tmp2 := store PATHMAX (strcat tmp2 "_test") in
               touch_wrap tmp tmp2 (nth i dirs "") (nth 1 file_ext no_literal)
           | _ =>
               touch_wrap tmp project (nth i dirs "") (nth 1 file_ext no_literal)
           end in
         ret tmp)
      tmp in
  ret tt.

Definition create_makes (dirname project : string) : M unit :=
  let mks := ["Makefile"; "Makefile.win"] in
  let* _ :=
    for_each (seq 0 2)
      (fun i (_ : unit) =>
         let* _ := printf ("Creating " +:+ nth i mks "" +:+ "...") in
         let* r := makefile_create (nth i mks "") project dirname in
         if r =? 0
         then printf ("Failed to create " +:+ nth i mks "" +:+ "; "
                      +:+ nth i mks "" +:+ " may already exist.")
         else printf (nth i mks "" +:+ " was created."))
      tt in
  ret tt.

(** [tmp] is set anew in every turn; clearing it at the end of the turn
    has no effect and is left out. *)
Definition create_tree (dirname : string) : M unit :=
  let dirs := ["lib"; "src"; "test"; "include"] in
  let* _ :=
    for_each (seq 0 4)
      (fun i (_ : unit) =>
         let* tmp := store 256 (nth i dirs "" +:+ " directory...") in
         let* _ := printf (tmp +:+ nl) in
         let* r := create_dir dirname (nth i dirs "") in
         if r =? 0
         then printf ("Failed to create " +:+ nth i dirs "" +:+ " directory."
                      +:+ " Directory already exists or path"
                      +:+ " exceeds MAX_PATH." +:+ nl)
         else printf ("Directory " +:+ nth i dirs "" +:+ " created." +:+ nl))
      tt in
  ret tt.

(** The three calls [main] makes once [dirname] and [project] are set. *)
Definition scaffold (dirname project : string) : M Z :=
  let* _ := create_tree dirname in
  let* _ := create_files dirname project in
  let* _ := create_makes dirname project in
  ret 0.

(** [p == NULL] *)
Definition is_null {A} (p : option A) : bool :=
  match p with
  | None => true
  | Some _ => false
  end.

(** [main], with [argc] the length of [argv]. The label [ERRORQUIT] is
    [return 1], the call of [print_help] before it being commented out. *)
Definition main (argv : list string) : M Z :=
  let argc := Z.of_nat (length argv) in
  let dirname := junk cfg "dirname" in
  let project := junk cfg "project" in
  if argc =? 2 then
    let dirname := snd (abspath dirname (nth 1 argv "")) in
    let* project := store PATHMAX (nth 1 argv "") in
    (* [dirname] is the array of [main], whose address is tested *)
    if is_null (Some dirname) then ret 1
    else scaffold (cstr dirname) project
  else if argc =? 1 then
    let dirname := poke dirname 0 "."%char in
    let dirname := snd (abspath dirname (cstr dirname)) in
    let project := strslice project (cstr dirname) (sep OS) in
    scaffold (cstr dirname) (cstr project)
  else ret 1.

End Program.

(** *** What a run does to the file system

    Every call of the program that touches the file system does one of four
    things to it. The lists of actions below are what [create_tree],
    [create_files] and [create_makes] come to; that they do is proved, not
    assumed ([scaffold_plan]). *)

Inductive action : Type :=
| Pass (ok : bool)                    (* go on, or go wrong *)
| EnsureDir (path : string)            (* make a directory, if it can be made *)
| EnsureFile (path content : string)   (* make a file; its directory must exist *)
| Expect (path : string).             (* go wrong unless the path exists *)

Definition act (o : os) (a : action) (fs : gmap string node)
  : option (gmap string node) :=
  match a with
  | Pass ok => if ok then Some fs else None
  | EnsureDir path =>
      match fs !! path with
      | Some _ => Some fs
      | None => if parent_is_dir o fs path then Some (<[path := Dir]> fs) else Some fs
      end
  | EnsureFile path content =>
      match fs !! path with
      | Some _ => Some fs
      | None => if parent_is_dir o fs path then Some (<[path := File content]> fs) else None
      end
  | Expect path =>
      match fs !! path with
      | Some _ => Some fs
      | None => None
      end
  end.

Fixpoint run (o : os) (l : list action) (fs : gmap string node)
  : option (gmap string node) :=
  match l with
  | [] => Some fs
  | a :: rest =>
      match act o a fs with
      | Some fs' => run o rest fs'
      | None => None
      end
  end.

(** The path an action may create. *)
Definition target (a : action) : option string :=
  match a with
  | EnsureDir path => Some path
  | EnsureFile path _ => Some path
  | _ => None
  end.

(** What a computation does to the file system, its output left aside. *)
Definition effect {A} (m : M A) (w : world) : option (gmap string node) :=
  match m w with
  | Ok (_, w') => Some (files w')
  | Fault _ => None
  end.

Definition implements {A} (m : M A)
  (f : gmap string node -> option (gmap string node)) : Prop :=
  forall w, effect m w = f (files w).

Definition fits (size : Z) (s : string) : bool :=
  len s + 1 <=? size.

Section Plan.

Variable cfg : config.

Abbreviation OS := (platform cfg).
Abbreviation SEP := (str (sep (platform cfg))).
Abbreviation PATHMAX := (PATH_MAX (platform cfg)).

Definition create_dir_action (dirname destname : string) : action :=
  if PATHMAX <? len dirname + len destname
  then Pass true
  else if fits PATHMAX (dirname +:+ SEP +:+ destname)
       then EnsureDir (dirname +:+ SEP +:+ destname)
       else Pass false.

Definition touch_action (path project : string) (ext : literal) : action :=
  if PATHMAX <? len path + len project + len (text ext)
  then Pass true
  else if fits PATHMAX (path +:+ SEP +:+ project +:+ text ext)
       then EnsureFile (path +:+ SEP +:+ project +:+ text ext)
                       (file_text cfg project ext)
       else Pass false.

Definition makefile_action (makename project dirname : string) : action :=
  if fits PATHMAX (dirname +:+ SEP +:+ makename)
  then if fits 432 (make_contents project)
       then EnsureFile (dirname +:+ SEP +:+ makename) (make_contents project)
       else Expect (dirname +:+ SEP +:+ makename)
  else Pass false.

Definition tree_plan (dirname : string) : list action :=
  map (create_dir_action dirname) ["lib"; "src"; "test"; "include"].

(** [tmp] of [create_files] after [strclr] and [strcat] in a turn of the loop. *)
Definition next_tmp (dirname tmp dir : string) : string :=
  strcat (strclr tmp (String.length dirname + 1) (strlen tmp)) dir.

Definition files_plan (dirname project : string) : list action :=
  let ext_h := nth 0 file_ext no_literal in
  let ext_c := nth 1 file_ext no_literal in
  let tmp0 := dirname +:+ SEP +:+ "lib" in
  let tmp1 := next_tmp dirname tmp0 "lib" in
  let tmp2 := next_tmp dirname tmp1 "src" in
  let tmp3 := next_tmp dirname tmp2 "test" in
  [ Pass (fits PATHMAX tmp0); touch_action tmp0 project ext_h;
    Pass (fits PATHMAX tmp1); touch_action tmp1 project ext_c;
    Pass (fits PATHMAX tmp2);
    Pass (fits PATHMAX project); Pass (fits PATHMAX (strcat project "_app"));
    touch_action tmp2 (strcat project "_app") ext_c;
    Pass (fits PATHMAX tmp3);
    Pass (fits PATHMAX project); Pass (fits PATHMAX (strcat project "_test"));
    touch_action tmp3 (strcat project "_test") ext_c ].

Definition makes_plan (dirname project : string) : list action :=
  map (fun mk => makefile_action mk project dirname) ["Makefile"; "Makefile.win"].

Definition plan (dirname project : string) : list action :=
  tree_plan dirname ++ files_plan dirname project ++ makes_plan dirname project.

End Plan.

(** Two actions on the same path, whatever they write. *)
Definition same_shape (a a' : action) : Prop :=
  match a, a' with
  | Pass ok, Pass ok' => ok = ok'
  | EnsureDir path, EnsureDir path' => path = path'
  | EnsureFile path _, EnsureFile path' _ => path = path'
  | Expect path, Expect path' => path = path'
  | _, _ => False
  end.

(** An action that makes directories in [d] only and does not make [d]. *)
Definition rooted (o : os) (d : string) (a : action) : Prop :=
  match a with
  | EnsureDir path => dir_part (sep o) path = Some d /\ path <> d
  | EnsureFile path _ => path <> d
  | _ => True
  end.

(** *** The layout of a scaffold *)

(** [dir/name], with the separator of the platform. *)
Definition join (o : os) (dir name : string) : string :=
  dir +:+ str (sep o) +:+ name.

(** The paths a run makes in an empty root, in the order it makes them,
    and what is in them. *)
Definition layout (cfg : config) (dirname project : string)
  : list (string * node) :=
  let o := platform cfg in
  let ext_h := nth 0 file_ext no_literal in
  let ext_c := nth 1 file_ext no_literal in
  [ (join o dirname "lib", Dir);
    (join o dirname "src", Dir);
    (join o dirname "test", Dir);
    (join o dirname "include", Dir);
    (join o (join o dirname "lib") (project +:+ ".h"),
      File (file_text cfg project ext_h));
    (join o (join o dirname "lib") (project +:+ ".c"),
      File (file_text cfg project ext_c));
    (join o (join o dirname "src") (project +:+ "_app" +:+ ".c"),
      File (file_text cfg (project +:+ "_app") ext_c));
    (join o (join o dirname "test") (project +:+ "_test" +:+ ".c"),
      File (file_text cfg (project +:+ "_test") ext_c));
    (join o dirname "Makefile", File (make_contents project));
    (join o dirname "Makefile.win", File (make_contents project)) ].

(** A root directory with nothing below it and a project name without
    separator, both C strings, which fit the arrays of the program: the
    longest path, with its terminator, is that of [test/<project>_test.c],
    and [make_contents] has 432 bytes for the text of a build file, 300 of
    them taken by the fragments and their terminator. *)
Record fresh_root (cfg : config) (dirname project : string)
  (fs : gmap string node) : Prop := FreshRoot {
  root_cstring : nul_free dirname;
  name_cstring : nul_free project;
  name_plain : dir_part (sep (platform cfg)) project = None;
  paths_fit : len dirname + len project + 14 <= PATH_MAX (platform cfg);
  contents_fit : len project <= 33;
  root_exists : fs !! dirname = Some Dir;
  root_empty :
    forall rest, fs !! (dirname +:+ String (sep (platform cfg)) rest) = None
}.

(** The entries of a list added to a file system, first to last. *)
Definition add_all (l : list (string * node)) (fs : gmap string node)
  : gmap string node :=
  fold_left (fun m e => <[e.1 := e.2]> m) l fs.

(** *** Reading texts *)

Fixpoint starts_with (s t : string) : bool :=
  match s, t with
  | EmptyString, _ => true
  | String a s', String b t' => Ascii.eqb a b && starts_with s' t'
  | String _ _, EmptyString => false
  end.

(** [s] occurs in [t]. *)
Fixpoint contains (s t : string) : bool :=
  starts_with s t ||
  match t with
  | EmptyString => false
  | String _ t' => contains s t'
  end.

(** The number of places of [t] at which [s] starts. *)
Fixpoint occurrences (s t : string) : nat :=
  ((if starts_with s t then 1 else 0) +
   match t with
   | EmptyString => 0
   | String _ t' => occurrences s t'
   end)%nat.

(** Lines joined by newlines, none after the last. *)
Definition unlines (ls : list string) : string := String.concat nl ls.

(** A string of [n] times the byte [c]. *)
Fixpoint replicate_byte (n : nat) (c : ascii) : string :=
  match n with
  | O => EmptyString
  | S k => String c (replicate_byte k c)
  end.

(** *** Builds and worlds to run the program in *)

(** A Linux build with pooled literals, a stack of zero bytes and every
    path its own absolute form. *)
Definition linux_cfg : config :=
  Config Linux true (fun p => Some p) (fun _ => "").

(** The same without pooling of string literals. *)
Definition linux_unpooled_cfg : config :=
  Config Linux false (fun p => Some p) (fun _ => "").

(** A Windows build; relative paths are resolved in [work] on drive C. *)
Definition windows_cfg : config :=
  Config Windows true
         (fun p => Some ("C:" +:+ str (sep Windows) +:+ "work"
                         +:+ str (sep Windows) +:+ p))
         (fun _ => "").

(** A build on which no path resolves, started with the bytes of [/r] in
    the array [dirname] of [main]. *)
Definition unresolved_cfg : config :=
  Config Linux true (fun _ => None)
         (fun name => if String.eqb name "dirname" then "/r" else "").

(** A world whose only entry is the directory [root]. *)
Definition fresh (root : string) : world := World {[ root := Dir ]} "".

(** The world a computation ends in; the world it started in if it went
    wrong. *)
Definition world_after {A} (m : M A) (w : world) : world :=
  match m w with
  | Ok (_, w') => w'
  | Fault _ => w
  end.

(** How a computation ends, the world left aside. *)
Definition outcome {A} (m : M A) (w : world) : result A :=
  match m w with
  | Ok (a, _) => Ok a
  | Fault f => Fault f
  end.

(** A directory of [n] bytes on drive C. *)
Definition long_dir (n : nat) : string :=
  "C:" +:+ str (sep Windows) +:+ replicate_byte (n - 3) "a".

(** The lines of a generated build file. *)
Definition makefile_lines (project : string) : list string :=
  [ "IDIR =./include";
    "CC=gcc";
    "CFLAGS=-I$(IDIR)";
    "ODIR=obj";
    "LDIR =./lib";
    "LIBS=";
    "";
    "_DEPS = " +:+ project +:+ ".h";
    "DEPS = $(patsubst %,$(IDIR)/%,$(_DEPS))";
    "";
    "_OBJ = " +:+ project +:+ ".o " +:+ project +:+ "_test.o";
    "OBJ = $(patsubst %,$(ODIR)/%,$(_OBJ))";
    "";
    "$(ODIR)/%.o: %.c $(DEPS)";
    tab +:+ "$(CC) -c -o $@ $< $(CFLAGS)";
    "";
    project +:+ "_app: $(OBJ)";
    tab +:+ "gcc -o $@ $^ $(CFLAGS) $(LIBS)";
    "";
    ".PHONY: clean";
    "";
    "clean:" ].

(** *** More to state properties with *)

(** A path below a directory. *)
Definition below (o : os) (dirname path : string) : Prop :=
  exists rest, path = dirname +:+ String (sep o) rest.

(** An entry added to a file system unless its path is taken. *)
Definition fill (e : string * node) (fs : gmap string node) : gmap string node :=
  match fs !! e.1 with
  | Some _ => fs
  | None => <[e.1 := e.2]> fs
  end.

Definition fill_all (l : list (string * node)) (fs : gmap string node)
  : gmap string node :=
  fold_left (fun m e => fill e m) l fs.

(** A world with nothing in it. *)
Definition nowhere : world := World ∅ "".

(** A root in which [lib], a header and a build file are there already, the
    two files with a text of their own. *)
Definition started : world :=
  World (list_to_map [ ("/r", Dir); ("/r/lib", Dir);
                       ("/r/lib/demo.h", File "mine");
                       ("/r/Makefile", File "mine") ]) "".

(** A build started in the directory [/home/alice/widget]. *)
Definition widget_cfg : config :=
  Config Linux true (fun _ => Some "/home/alice/widget") (fun _ => "").

(** A Windows build started where no path resolves, the array [project]
    of [main] holding bytes of its own and the rest of the stack zero. *)
Definition lost_cfg : config :=
  Config Windows true (fun _ => None)
         (fun name => if String.eqb name "project" then "old bytes" else "").

(** * Facts *)

(** ** Strings *)

Section StringFacts.

Lemma append_nil_l s : "" +:+ s = s.
Proof. reflexivity. Qed.

Lemma append_cons c s t : String c s +:+ t = String c (s +:+ t).
Proof. reflexivity. Qed.

Lemma append_nil_r s : s +:+ "" = s.
Proof.
  induction s as [|c s IH]; [reflexivity|]. now rewrite append_cons, IH.
Qed.

Lemma append_assoc a b c : (a +:+ b) +:+ c = a +:+ (b +:+ c).
Proof.
  induction a as [|x a IH]; [reflexivity|]. now rewrite !append_cons, IH.
Qed.

Lemma length_append a b :
  String.length (a +:+ b) = (String.length a + String.length b)%nat.
Proof.
  induction a as [|x a IH]; [reflexivity|]. rewrite append_cons. simpl. now rewrite IH.
Qed.

Lemma append_inv_head a x y : a +:+ x = a +:+ y -> x = y.
Proof.
  induction a as [|c a IH]; intros H; [exact H|].
  rewrite !append_cons in H. injection H as H. auto.
Qed.

Lemma nul_free_append a b : nul_free a -> nul_free b -> nul_free (a +:+ b).
Proof.
  induction a as [|c a IH]; [auto|]. rewrite append_cons. simpl.
  intros [Hc Ha] Hb. auto.
Qed.

Lemma cstr_append a b : nul_free a -> cstr (a +:+ b) = a +:+ cstr b.
Proof.
  induction a as [|c a IH]; [reflexivity|]. rewrite !append_cons. simpl.
  intros [Hc Ha].
  destruct (Ascii.eqb_spec c NUL) as [->|_]; [contradiction|].
  now rewrite IH.
Qed.

Lemma cstr_nul_free s : nul_free s -> cstr s = s.
Proof.
  intros H. rewrite <- (append_nil_r s) at 1.
  rewrite cstr_append by assumption. simpl. apply append_nil_r.
Qed.

Lemma strlen_nul_free s : nul_free s -> strlen s = String.length s.
Proof. intros H. unfold strlen. now rewrite cstr_nul_free. Qed.

Lemma poke_append a b k c :
  poke (a +:+ b) (String.length a + k) c = a +:+ poke b k c.
Proof.
  induction a as [|x a IH]; [reflexivity|]. rewrite !append_cons. simpl.
  now rewrite IH.
Qed.

Lemma clear_append a b s n :
  fold_left (fun t i => poke t i NUL) (seq (String.length a + s) n) (a +:+ b) =
  a +:+ fold_left (fun t i => poke t i NUL) (seq s n) b.
Proof.
  revert s b. induction n as [|n IH]; intros s b; simpl; [reflexivity|].
  rewrite poke_append. rewrite <- Nat.add_succ_r. apply IH.
Qed.

Lemma clear_tail h r s n :
  fold_left (fun t i => poke t i NUL) (seq (S s) n) (String h r) =
  String h (fold_left (fun t i => poke t i NUL) (seq s n) r).
Proof.
  revert s r. induction n as [|n IH]; intros s r; simpl; [reflexivity|].
  destruct r as [|x r]; apply IH.
Qed.

Lemma cstr_clear_all b :
  cstr (fold_left (fun t i => poke t i NUL) (seq 0 (String.length b)) b) = "".
Proof.
  destruct b as [|x b]; simpl; [reflexivity|].
  rewrite clear_tail. reflexivity.
Qed.

Lemma sep_not_nul o : sep o <> NUL.
Proof. destruct o; discriminate. Qed.

(** [tmp] is set to the next directory, as the loop of [create_files]
    means it to be. *)
Lemma next_tmp_join o dirname dir dir' :
  nul_free dirname -> nul_free dir ->
  next_tmp dirname (dirname +:+ str (sep o) +:+ dir) dir' =
  dirname +:+ str (sep o) +:+ dir'.
Proof.
  intros HD Hd. unfold next_tmp, strcat, strclr.
  assert (Hsep : nul_free (dirname +:+ str (sep o))).
  { apply nul_free_append; [assumption|]. simpl. split; [apply sep_not_nul | exact I]. }
  rewrite <- !append_assoc.
  rewrite strlen_nul_free by (apply nul_free_append; assumption).
  rewrite length_append.
  replace (String.length dirname + 1)%nat
    with (String.length (dirname +:+ str (sep o)) + 0)%nat
    by (rewrite length_append; simpl; lia).
  replace (String.length (dirname +:+ str (sep o)) + String.length dir
           - (String.length (dirname +:+ str (sep o)) + 0))%nat
    with (String.length dir) by lia.
  rewrite clear_append, cstr_append by assumption.
  rewrite cstr_clear_all, append_nil_r. reflexivity.
Qed.

Lemma dir_part_join c dirname name :
  dir_part c name = None -> dir_part c (dirname +:+ String c name) = Some dirname.
Proof.
  intros H. induction dirname as [|x d IH].
  - rewrite append_nil_l. simpl. rewrite H. now rewrite Ascii.eqb_refl.
  - rewrite append_cons. simpl. now rewrite IH.
Qed.

Lemma dir_part_none_append c a b :
  dir_part c a = None -> dir_part c b = None -> dir_part c (a +:+ b) = None.
Proof.
  intros Ha Hb. induction a as [|x a IH]; [assumption|].
  rewrite append_cons. simpl in *.
  destruct (dir_part c a); [discriminate|].
  destruct (Ascii.eqb x c); [discriminate|].
  now rewrite IH.
Qed.

Lemma append_differs a x y : x <> y -> a +:+ x <> a +:+ y.
Proof. intros H E. apply H. eapply append_inv_head, E. Qed.

Lemma longer_differs c (a b : string) : a +:+ String c b <> a.
Proof.
  intros H. apply (f_equal String.length) in H.
  rewrite length_append in H. simpl in H. lia.
Qed.

Lemma shorter_differs c (a b : string) : a <> a +:+ String c b.
Proof. intros H. symmetry in H. revert H. apply longer_differs. Qed.

End StringFacts.

(** ** The program does what its plan says *)

Section Refinement.

Variable cfg : config.

Lemma implements_ret {A} (a : A) : implements (ret a) Some.
Proof. intros w. reflexivity. Qed.

Lemma implements_printf s : implements (printf s) Some.
Proof. intros w. reflexivity. Qed.

Lemma implements_bind {A B} (m : M A) (k : A -> M B) f g :
  implements m f -> (forall a, implements (k a) g) ->
  implements (bind m k) (fun fs => match f fs with Some fs' => g fs' | None => None end).
Proof.
  intros Hm Hk w. specialize (Hm w). unfold effect, bind in *.
  destruct (m w) as [[a w']|e]; rewrite <- Hm; [apply Hk | reflexivity].
Qed.

Lemma implements_ext {A} (m : M A) f g :
  implements m f -> (forall fs, f fs = g fs) -> implements m g.
Proof. intros Hm Hfg w. rewrite <- Hfg. apply Hm. Qed.

Lemma implements_cons {A B} (m : M A) (k : A -> M B) a l :
  implements m (act (platform cfg) a) ->
  (forall x, implements (k x) (run (platform cfg) l)) ->
  implements (bind m k) (run (platform cfg) (a :: l)).
Proof. intros Hm Hk. exact (implements_bind m k _ _ Hm Hk). Qed.

Lemma implements_silent {A B} (m : M A) (k : A -> M B) f :
  implements m Some -> (forall x, implements (k x) f) -> implements (bind m k) f.
Proof. intros Hm Hk. exact (implements_bind m k _ _ Hm Hk). Qed.

Lemma implements_store {B} size s (k : string -> M B) l :
  implements (k s) (run (platform cfg) l) ->
  implements (bind (store size s) k) (run (platform cfg) (Pass (fits size s) :: l)).
Proof.
  intros Hk w. unfold effect, bind, store, fits. simpl.
  destruct (len s + 1 <=? size); [apply Hk | reflexivity].
Qed.

Ltac exists_case E :=
  match goal with
  | |- context [files ?w !! ?p] => destruct (files w !! p) eqn:E
  end;
  [ change (0 + 1 =? 0) with false | change (-1 + 1 =? 0) with true ];
  cbn [andb negb]; cbv beta iota; cbn [files stdout]; rewrite ?E.

Lemma create_dir_implements dirname destname :
  implements (create_dir cfg dirname destname)
             (act (platform cfg) (create_dir_action cfg dirname destname)).
Proof.
  intros w. unfold create_dir, create_dir_action, effect.
  destruct (_ <? _); [reflexivity|].
  unfold mk_dir, exists_. unfold bind, store, fits, stat, os_mkdir, ret, act.
  destruct (_ <=? _); [|reflexivity].
  exists_case E; [reflexivity|].
  change (-1 =? -1) with true. cbv beta iota. rewrite E.
  destruct (parent_is_dir _ _ _); reflexivity.
Qed.

Lemma touch_implements path project ext :
  implements (touch cfg path project ext)
             (act (platform cfg) (touch_action cfg path project ext)).
Proof.
  intros w. unfold touch, touch_action, effect.
  destruct (_ <? _).
  - unfold exists_. unfold bind, stat, ret. cbv beta iota zeta.
    change (0 =? 0) with true. cbn [negb]. rewrite andb_false_r. reflexivity.
  - unfold exists_. unfold bind, store, fits, stat, fopen_w, fprintf, fclose, ret, crash, act.
    cbv beta iota zeta. change (1 =? 0) with false. cbv beta iota.
    destruct (_ <=? _); [|reflexivity].
    exists_case E; [reflexivity|].
    destruct (parent_is_dir _ _ _); cbn [files stdout andb negb]; [|reflexivity].
    rewrite lookup_insert_eq. cbn [files stdout]. rewrite insert_insert_eq. reflexivity.
Qed.

Lemma makefile_create_implements makename project dirname :
  implements (makefile_create cfg makename project dirname)
             (act (platform cfg) (makefile_action cfg makename project dirname)).
Proof.
  intros w. unfold makefile_create, makefile_action, effect.
  unfold exists_. unfold bind, store, stat, fopen_w, fprintf, fclose, ret, crash.
  destruct (fits _ (_ +:+ _)) eqn:Hfit; unfold fits in Hfit; rewrite Hfit; [|reflexivity].
  destruct (fits 432 _) eqn:Hmk; unfold fits in Hmk; unfold act.
  - exists_case E; [reflexivity|].
    destruct (parent_is_dir _ _ _); cbn [files stdout]; [|reflexivity].
    rewrite Hmk. cbn [files stdout].
    rewrite lookup_insert_eq. cbn [files stdout]. rewrite insert_insert_eq. reflexivity.
  - exists_case E; [reflexivity|].
    destruct (parent_is_dir _ _ _); cbn [files stdout]; [|reflexivity].
    rewrite Hmk. reflexivity.
Qed.

Lemma run_app o l1 l2 fs :
  run o (l1 ++ l2) fs =
  match run o l1 fs with Some fs' => run o l2 fs' | None => None end.
Proof.
  revert fs. induction l1 as [|a l1 IH]; intros fs; simpl; [reflexivity|].
  destruct (act o a fs); [apply IH | reflexivity].
Qed.

Lemma implements_app {A B} (m : M A) (k : A -> M B) l1 l2 :
  implements m (run (platform cfg) l1) ->
  (forall x, implements (k x) (run (platform cfg) l2)) ->
  implements (bind m k) (run (platform cfg) (l1 ++ l2)).
Proof.
  intros Hm Hk. eapply implements_ext.
  - exact (implements_bind m k _ _ Hm Hk).
  - intros fs. symmetry. apply run_app.
Qed.

Lemma implements_nil {A} (a : A) : implements (ret a) (run (platform cfg) []).
Proof. intros w. reflexivity. Qed.

Lemma touch_wrap_implements path name dir ext :
  implements (touch_wrap cfg path name dir ext)
             (act (platform cfg) (touch_action cfg path name ext)).
Proof.
  unfold touch_wrap.
  apply implements_silent; [apply implements_printf|]. intros _.
  eapply implements_ext.
  - apply implements_bind; [apply touch_implements|].
    intros r. instantiate (1 := Some).
    destruct (r =? 0); apply implements_printf.
  - intros fs. simpl. destruct (act _ _ fs); reflexivity.
Qed.

Lemma implements_assoc {A B C} (m : M A) (f : A -> M B) (g : B -> M C) F :
  implements (bind m (fun x => bind (f x) g)) F ->
  implements (bind (bind m f) g) F.
Proof.
  intros H w. rewrite <- (H w). unfold effect, bind.
  destruct (m w) as [[a w']|e]; reflexivity.
Qed.

Lemma implements_store_ok {B} size s (k : string -> M B) F :
  fits size s = true -> implements (k s) F -> implements (bind (store size s) k) F.
Proof.
  intros Hfit Hk w. unfold effect, bind, store. unfold fits in Hfit.
  rewrite Hfit. apply Hk.
Qed.

Lemma implements_ret_bind {A B} (a : A) (k : A -> M B) F :
  implements (k a) F -> implements (bind (ret a) k) F.
Proof. intros H. exact H. Qed.

Ltac refine_step :=
  match goal with
  | |- implements (bind (bind _ _) _) _ => apply implements_assoc
  | |- implements (bind (store 256 _) _) _ =>
      apply implements_store_ok; [reflexivity|]
  | |- implements (bind (store _ _) _) (run _ (Pass _ :: _)) =>
      apply implements_store
  | |- implements (bind (printf _) _) _ =>
      apply implements_silent; [apply implements_printf | intros ?]
  | |- implements (bind (ret _) _) _ => apply implements_ret_bind
  | |- implements (bind (create_dir _ _ _) _) _ =>
      apply implements_cons; [apply create_dir_implements | intros ?]
  | |- implements (bind (touch_wrap _ _ _ _ _) _) _ =>
      apply implements_cons; [apply touch_wrap_implements | intros ?]
  | |- implements (bind (makefile_create _ _ _ _) _) _ =>
      apply implements_cons; [apply makefile_create_implements | intros ?]
  | |- implements (bind (if ?b then _ else _) _) _ => destruct b
  | |- implements (ret _) _ => apply implements_nil
  end.

Lemma create_tree_implements dirname :
  implements (create_tree cfg dirname) (run (platform cfg) (tree_plan cfg dirname)).
Proof.
  unfold create_tree, tree_plan. cbn [map seq for_each nth].
  repeat refine_step.
Qed.

Lemma create_makes_implements dirname project :
  implements (create_makes cfg dirname project)
             (run (platform cfg) (makes_plan cfg dirname project)).
Proof.
  unfold create_makes, makes_plan. cbn [map seq for_each nth].
  repeat refine_step.
Qed.

Lemma create_files_implements dirname project :
  implements (create_files cfg dirname project)
             (run (platform cfg) (files_plan cfg dirname project)).
Proof.
  unfold create_files, files_plan, next_tmp. cbn [map seq for_each nth].
  repeat refine_step.
Qed.

Lemma scaffold_plan dirname project :
  implements (scaffold cfg dirname project)
             (run (platform cfg) (plan cfg dirname project)).
Proof.
  unfold scaffold, plan.
  apply implements_app; [apply create_tree_implements | intros _].
  apply implements_app; [apply create_files_implements | intros _].
  eapply implements_ext.
  - apply implements_app with (l2 := []);
      [apply create_makes_implements | intros _; apply implements_nil].
  - intros fs. rewrite app_nil_r. reflexivity.
Qed.

End Refinement.

(** ** Plans *)

Section Plans.

Variable o : os.

Lemma act_grows a (fs fs' : gmap string node) :
  act o a fs = Some fs' -> fs ⊆ fs'.
Proof.
  destruct a as [ok|path|path content|path]; simpl.
  - destruct ok; intros [= <-]; done.
  - destruct (fs !! path) eqn:E; [intros [= <-]; done|].
    destruct (parent_is_dir o fs path); intros [= <-]; [|done].
    by apply insert_subseteq.
  - destruct (fs !! path) eqn:E; [intros [= <-]; done|].
    destruct (parent_is_dir o fs path); intros [= <-].
    by apply insert_subseteq.
  - destruct (fs !! path); intros [= <-]; done.
Qed.

Lemma act_elsewhere a (fs fs' : gmap string node) k :
  act o a fs = Some fs' -> target a <> Some k -> fs' !! k = fs !! k.
Proof.
  destruct a as [ok|path|path content|path]; simpl.
  - destruct ok; intros [= <-]; done.
  - destruct (fs !! path) eqn:E; [intros [= <-]; done|].
    destruct (parent_is_dir o fs path); intros [= <-] Hk; [|done].
    apply lookup_insert_ne. congruence.
  - destruct (fs !! path) eqn:E; [intros [= <-]; done|].
    destruct (parent_is_dir o fs path); intros [= <-] Hk.
    apply lookup_insert_ne. congruence.
  - destruct (fs !! path); intros [= <-]; done.
Qed.

Lemma rooted_target d a : rooted o d a -> target a <> Some d.
Proof.
  destruct a; simpl; try discriminate.
  - intros [_ H] [= E]. contradiction.
  - intros H [= E]. contradiction.
Qed.

Lemma run_grows l (fs fs' : gmap string node) :
  run o l fs = Some fs' -> fs ⊆ fs'.
Proof.
  revert fs. induction l as [|a l IH]; simpl; intros fs.
  - intros [= <-]; done.
  - destruct (act o a fs) as [fsa|] eqn:Ea; [|discriminate].
    intros Hl. transitivity fsa; [by eapply act_grows | by apply IH].
Qed.

Lemma run_root d l (fs fs' : gmap string node) :
  Forall (rooted o d) l -> run o l fs = Some fs' -> fs' !! d = fs !! d.
Proof.
  intros Hl. revert fs. induction Hl as [|a l Ha Hl IH]; simpl; intros fs.
  - intros [= <-]; done.
  - destruct (act o a fs) as [fsa|] eqn:Ea; [|discriminate].
    intros Hrun. rewrite (IH _ Hrun).
    eapply act_elsewhere; [eassumption | by apply rooted_target].
Qed.

(** An action that has been done is done: on a later state of the file
    system, in which the root is what it was, it changes nothing. *)
Lemma act_settled d a a' (fs fsa fs2 : gmap string node) :
  same_shape a a' -> rooted o d a ->
  act o a fs = Some fsa -> fsa ⊆ fs2 -> fs2 !! d = fs !! d ->
  act o a' fs2 = Some fs2.
Proof.
  intros Hs Hr Ha Hsub Hd.
  destruct a as [ok|path|path content|path], a' as [ok'|path'|path' content'|path'];
    simpl in Hs; try contradiction; subst; simpl in *.
  - destruct ok'; [reflexivity | discriminate].
  - destruct (fs2 !! path') eqn:E2; [reflexivity|].
    destruct Hr as [Hpart _].
    destruct (fs !! path') eqn:E.
    { injection Ha as <-. by rewrite (lookup_weaken _ _ _ _ E Hsub) in E2. }
    unfold parent_is_dir in *. rewrite Hpart in *. unfold is_dir in *.
    rewrite Hd.
    destruct (fs !! d) as [[|c]|]; try reflexivity.
    injection Ha as <-.
    pose proof (lookup_weaken _ _ path' Dir (lookup_insert_eq _ _ _) Hsub) as H.
    congruence.
  - destruct (fs2 !! path') eqn:E2; [reflexivity|].
    destruct (fs !! path') eqn:E.
    { injection Ha as <-. by rewrite (lookup_weaken _ _ _ _ E Hsub) in E2. }
    destruct (parent_is_dir o fs path'); [|discriminate].
    injection Ha as <-.
    pose proof (lookup_weaken _ _ path' _ (lookup_insert_eq _ _ _) Hsub) as H.
    congruence.
  - destruct (fs !! path') eqn:E; [|discriminate].
    injection Ha as <-. by rewrite (lookup_weaken _ _ _ _ E Hsub).
Qed.

Lemma run_settled_on d l l' (fs fs1 fs2 : gmap string node) :
  Forall2 same_shape l l' -> Forall (rooted o d) l ->
  run o l fs = Some fs1 -> fs1 ⊆ fs2 -> fs2 !! d = fs !! d ->
  run o l' fs2 = Some fs2.
Proof.
  intros Hs. revert fs. induction Hs as [|a a' l l' Ha Hs IH]; intros fs Hr Hrun Hsub Hd.
  - reflexivity.
  - inversion Hr as [|? ? Hra Hrl]; subst. simpl in *.
    destruct (act o a fs) as [fsa|] eqn:Ea; [|discriminate].
    assert (fsa ⊆ fs2) by (transitivity fs1; [by eapply run_grows | done]).
    rewrite (act_settled d a a' fs fsa fs2) by assumption.
    apply (IH fsa); try assumption.
    rewrite Hd. symmetry.
    eapply act_elsewhere; [eassumption | by apply rooted_target].
Qed.

Lemma run_settled d l l' (fs fs1 : gmap string node) :
  Forall2 same_shape l l' -> Forall (rooted o d) l ->
  run o l fs = Some fs1 -> run o l' fs1 = Some fs1.
Proof.
  intros Hs Hr Hrun.
  apply (run_settled_on d l l' fs fs1 fs1); try assumption; [done|].
  by eapply run_root.
Qed.

End Plans.

(** ** The plan of a scaffold *)

Section ScaffoldPlan.

Variable cfg : config.
Variables dirname project : string.
Hypothesis dirname_cstring : nul_free dirname.

Abbreviation OS := (platform cfg).
Abbreviation SEP := (str (sep (platform cfg))).

Lemma join_cons (a b : string) : a +:+ SEP +:+ b = a +:+ String (sep OS) b.
Proof. reflexivity. Qed.

Lemma create_dir_action_rooted destname :
  dir_part (sep OS) destname = None ->
  rooted OS dirname (create_dir_action cfg dirname destname).
Proof.
  intros H. unfold create_dir_action.
  destruct (_ <? _); [exact I|].
  destruct (fits _ _); [|exact I]. simpl. rewrite join_cons. split.
  - by apply dir_part_join.
  - apply longer_differs.
Qed.

Lemma touch_action_rooted dir name ext :
  rooted OS dirname (touch_action cfg (dirname +:+ SEP +:+ dir) name ext).
Proof.
  unfold touch_action.
  destruct (_ <? _); [exact I|].
  destruct (fits _ _); [|exact I]. simpl.
  rewrite !join_cons, append_assoc, append_cons. apply longer_differs.
Qed.

Lemma makefile_action_rooted makename :
  rooted OS dirname (makefile_action cfg makename project dirname).
Proof.
  unfold makefile_action.
  destruct (fits _ _); [|exact I].
  destruct (fits _ _); simpl; [|exact I].
  rewrite join_cons. apply longer_differs.
Qed.

Lemma no_sep_in_dirs :
  Forall (fun d => dir_part (sep OS) d = None) ["lib"; "src"; "test"; "include"].
Proof. destruct OS; repeat constructor. Qed.

Lemma files_plan_joined :
  files_plan cfg dirname project =
  let ext_h := nth 0 file_ext no_literal in
  let ext_c := nth 1 file_ext no_literal in
  let lib := dirname +:+ SEP +:+ "lib" in
  let src := dirname +:+ SEP +:+ "src" in
  let test := dirname +:+ SEP +:+ "test" in
  [ Pass (fits (PATH_MAX OS) lib); touch_action cfg lib project ext_h;
    Pass (fits (PATH_MAX OS) lib); touch_action cfg lib project ext_c;
    Pass (fits (PATH_MAX OS) src);
    Pass (fits (PATH_MAX OS) project);
    Pass (fits (PATH_MAX OS) (strcat project "_app"));
    touch_action cfg src (strcat project "_app") ext_c;
    Pass (fits (PATH_MAX OS) test);
    Pass (fits (PATH_MAX OS) project);
    Pass (fits (PATH_MAX OS) (strcat project "_test"));
    touch_action cfg test (strcat project "_test") ext_c ].
Proof.
  unfold files_plan. cbv zeta.
  rewrite !(next_tmp_join OS dirname)
    by first [assumption | simpl; repeat split; discriminate].
  reflexivity.
Qed.

Lemma plan_rooted : Forall (rooted OS dirname) (plan cfg dirname project).
Proof.
  unfold plan. rewrite files_plan_joined. cbv zeta.
  unfold tree_plan, makes_plan. cbn [map].
  pose proof no_sep_in_dirs as Hdirs.
  repeat (apply Forall_cons_1 in Hdirs; destruct Hdirs as [? Hdirs]).
  apply Forall_app; split; [|apply Forall_app; split];
    repeat (apply Forall_cons; split);
    try apply Forall_nil;
    lazymatch goal with
    | |- rooted _ _ (Pass _) => exact I
    | |- rooted _ _ (create_dir_action _ _ _) => by apply create_dir_action_rooted
    | |- rooted _ _ (touch_action _ _ _ _) => apply touch_action_rooted
    | |- rooted _ _ (makefile_action _ _ _ _) => apply makefile_action_rooted
    | |- True => exact I
    end.
Qed.

End ScaffoldPlan.

Lemma plan_same_shape cfg cfg' dirname project :
  platform cfg' = platform cfg ->
  Forall2 same_shape (plan cfg dirname project) (plan cfg' dirname project).
Proof.
  intros Hp. unfold plan.
  apply Forall2_app; [|apply Forall2_app];
    unfold tree_plan, files_plan, makes_plan, next_tmp;
    unfold create_dir_action, touch_action, makefile_action; rewrite Hp;
    cbn [map]; cbv zeta;
    repeat match goal with
      | |- Forall2 _ (_ :: _) (_ :: _) => constructor
      | |- Forall2 _ [] [] => constructor
      end;
    repeat (match goal with |- context [if ?b then _ else _] => destruct b end);
    reflexivity.
Qed.

(** ** A run in an empty root *)

Lemma len_append a b : len (a +:+ b) = len a + len b.
Proof. unfold len. rewrite length_append. lia. Qed.

Lemma len_cons c s : len (String c s) = 1 + len s.
Proof. unfold len. simpl String.length. lia. Qed.

Lemma len_nil : len "" = 0.
Proof. reflexivity. Qed.

Lemma len_nonneg s : 0 <= len s.
Proof. unfold len. lia. Qed.

Ltac len_norm :=
  unfold join, str, strcat in *;
  rewrite ?len_append, ?len_cons, ?len_nil in *.

Lemma len_make_contents project : len (make_contents project) = 299 + 4 * len project.
Proof.
  unfold make_contents. rewrite !len_append.
  change (len GCC_MAKE_MACROS) with 76. change (len GCC_MAKE_DEPS) with 51.
  change (len GCC_MAKE_OBJ) with 3. change (len GCC_MAKE_OBJ_BUILD) with 97.
  change (len GCC_MAKE_PHONY) with 63. change (len "_test") with 5.
  change (len "_app") with 4. lia.
Qed.

Lemma create_dir_action_fits cfg dirname destname :
  len dirname + len destname + 2 <= PATH_MAX (platform cfg) ->
  create_dir_action cfg dirname destname = EnsureDir (join (platform cfg) dirname destname).
Proof.
  intros H. unfold create_dir_action, fits, join.
  rewrite !len_append. change (len (str (sep (platform cfg)))) with 1.
  destruct (Z.ltb_spec (PATH_MAX (platform cfg)) (len dirname + len destname)); [lia|].
  destruct (Z.leb_spec (len dirname + (1 + len destname) + 1) (PATH_MAX (platform cfg))); [reflexivity | lia].
Qed.

Lemma touch_action_fits cfg path name ext :
  len path + len name + len (text ext) + 2 <= PATH_MAX (platform cfg) ->
  touch_action cfg path name ext =
  EnsureFile (join (platform cfg) path (name +:+ text ext)) (file_text cfg name ext).
Proof.
  intros H. unfold touch_action, fits, join.
  rewrite !len_append. change (len (str (sep (platform cfg)))) with 1.
  destruct (Z.ltb_spec (PATH_MAX (platform cfg)) (len path + len name + len (text ext))); [lia|].
  destruct (Z.leb_spec (len path + (1 + (len name + len (text ext))) + 1) (PATH_MAX (platform cfg)));
    [reflexivity | lia].
Qed.

Lemma makefile_action_fits cfg makename project dirname :
  len dirname + len makename + 2 <= PATH_MAX (platform cfg) ->
  len project <= 33 ->
  makefile_action cfg makename project dirname =
  EnsureFile (join (platform cfg) dirname makename) (make_contents project).
Proof.
  intros H Hmk. unfold makefile_action, fits, join.
  rewrite len_make_contents.
  rewrite !len_append. change (len (str (sep (platform cfg)))) with 1.
  destruct (Z.leb_spec (len dirname + (1 + len makename) + 1) (PATH_MAX (platform cfg))); [|lia].
  destruct (Z.leb_spec (299 + 4 * len project + 1) 432); [reflexivity | lia].
Qed.

Lemma strcat_cstring project suffix :
  nul_free project -> strcat project suffix = project +:+ suffix.
Proof. intros H. unfold strcat. now rewrite cstr_nul_free. Qed.

Lemma act_EnsureDir_new o path (fs : gmap string node) :
  fs !! path = None -> parent_is_dir o fs path = true ->
  act o (EnsureDir path) fs = Some (<[path := Dir]> fs).
Proof. intros H1 H2. unfold act. now rewrite H1, H2. Qed.

Lemma act_EnsureFile_new o path content (fs : gmap string node) :
  fs !! path = None -> parent_is_dir o fs path = true ->
  act o (EnsureFile path content) fs = Some (<[path := File content]> fs).
Proof. intros H1 H2. unfold act. now rewrite H1, H2. Qed.

Lemma parent_of_join o (fs : gmap string node) dir name :
  dir_part (sep o) name = None ->
  parent_is_dir o fs (join o dir name) = is_dir fs dir.
Proof.
  intros H. unfold parent_is_dir, join.
  change (dir +:+ str (sep o) +:+ name) with (dir +:+ String (sep o) name).
  now rewrite dir_part_join.
Qed.

(** Paths as the directory followed by what is below it. *)
Ltac path_norm :=
  unfold join, str;
  rewrite ?append_assoc;
  repeat rewrite ?append_cons, ?append_nil_l.

Ltac path_neq :=
  first
    [ apply shorter_differs
    | apply longer_differs
    | apply append_differs;
      let H := fresh in
      intros H;
      first [ discriminate H
            | injection H as H; apply append_inv_head in H; discriminate H ] ].

Section FreshRoot.

Variable cfg : config.
Variables dirname project : string.
Variable fs : gmap string node.

Abbreviation OS := (platform cfg).

Hypothesis ready : fresh_root cfg dirname project fs.

Lemma plan_fresh :
  plan cfg dirname project =
  map (fun e => match e.2 with
                | Dir => EnsureDir e.1
                | File c => EnsureFile e.1 c
                end) (firstn 4 (layout cfg dirname project))
  ++ [ Pass true; EnsureFile (join OS (join OS dirname "lib") (project +:+ ".h"))
                     (file_text cfg project (nth 0 file_ext no_literal));
       Pass true; EnsureFile (join OS (join OS dirname "lib") (project +:+ ".c"))
                     (file_text cfg project (nth 1 file_ext no_literal));
       Pass true; Pass true; Pass true;
       EnsureFile (join OS (join OS dirname "src") (project +:+ "_app" +:+ ".c"))
                  (file_text cfg (project +:+ "_app") (nth 1 file_ext no_literal));
       Pass true; Pass true; Pass true;
       EnsureFile (join OS (join OS dirname "test") (project +:+ "_test" +:+ ".c"))
                  (file_text cfg (project +:+ "_test") (nth 1 file_ext no_literal)) ]
  ++ [ EnsureFile (join OS dirname "Makefile") (make_contents project);
       EnsureFile (join OS dirname "Makefile.win") (make_contents project) ].
Proof.
  destruct ready as [HD Hp Hplain Hfit Hmk Hroot Hempty].
  pose proof (len_nonneg dirname). pose proof (len_nonneg project).
  unfold plan. rewrite files_plan_joined by assumption.
  unfold tree_plan, makes_plan, layout. cbn [map firstn nth fst snd]. cbv zeta.
  rewrite !strcat_cstring by assumption.
  rewrite !create_dir_action_fits by (len_norm; lia).
  rewrite !makefile_action_fits by first [assumption | len_norm; lia].
  rewrite !touch_action_fits by (unfold file_ext; cbn [nth text]; len_norm; lia).
  unfold fits.
  repeat match goal with
  | |- context [?a <=? ?b] =>
      destruct (Z.leb_spec a b); [| exfalso; len_norm; lia]
  end.
  unfold file_ext; cbn [nth text]. unfold join. rewrite <- !append_assoc.
  reflexivity.
Qed.

Ltac absent :=
  path_norm; rewrite ?lookup_insert_ne by path_neq;
  match goal with H : forall rest : string, _ |- _ => apply H end.

Ltac plain :=
  first [ destruct (platform cfg); reflexivity
        | apply dir_part_none_append;
          [assumption | destruct (platform cfg); reflexivity] ].

Ltac present :=
  rewrite parent_of_join by plain;
  unfold is_dir; path_norm;
  repeat first [ rewrite lookup_insert_eq
               | rewrite lookup_insert_ne by path_neq ];
  match goal with H : _ !! _ = Some Dir |- _ => rewrite ?H end;
  reflexivity.

Lemma run_fresh :
  run OS (plan cfg dirname project) fs =
  Some (add_all (layout cfg dirname project) fs).
Proof.
  rewrite plan_fresh by assumption.
  destruct ready as [_ _ Hplain _ _ Hroot Hempty].

  unfold layout, add_all. cbn [map firstn fold_left app run fst snd]. cbv zeta.
  repeat (first
    [ rewrite act_EnsureDir_new by first [absent | present]
    | rewrite act_EnsureFile_new by first [absent | present]
    | change (act OS (Pass true)) with (@Some (gmap string node)) ];
    cbv beta iota).
  reflexivity.
Qed.

End FreshRoot.

(** ** From plans back to runs *)

Lemma effect_Ok {A} (m : M A) w fs' :
  effect m w = Some fs' -> exists a w', m w = Ok (a, w') /\ files w' = fs'.
Proof.
  unfold effect. destruct (m w) as [[a w']|e]; [|discriminate].
  intros [= <-]. eauto.
Qed.

Lemma Ok_effect {A} (m : M A) w a w' :
  m w = Ok (a, w') -> effect m w = Some (files w').
Proof. unfold effect. now intros ->. Qed.

Lemma bind_Ok_inv {A B} (m : M A) (k : A -> M B) w b w' :
  bind m k w = Ok (b, w') -> exists a w1, m w = Ok (a, w1) /\ k a w1 = Ok (b, w').
Proof.
  unfold bind. destruct (m w) as [[a w1]|e]; [eauto | discriminate].
Qed.

Lemma scaffold_exit cfg dirname project w a w' :
  scaffold cfg dirname project w = Ok (a, w') -> a = 0.
Proof.
  unfold scaffold. intros H.
  apply bind_Ok_inv in H as (? & ? & _ & H).
  apply bind_Ok_inv in H as (? & ? & _ & H).
  apply bind_Ok_inv in H as (? & ? & _ & H).
  injection H as <- _. reflexivity.
Qed.

Lemma scaffold_fresh cfg dirname project w :
  fresh_root cfg dirname project (files w) ->
  exists w', scaffold cfg dirname project w = Ok (0, w') /\
             files w' = add_all (layout cfg dirname project) (files w).
Proof.
  intros ready.
  pose proof (scaffold_plan cfg dirname project w) as H.
  rewrite run_fresh in H by assumption.
  apply effect_Ok in H as (a & w' & Hrun & Hfs).
  pose proof (scaffold_exit _ _ _ _ _ _ Hrun) as ->.
  eauto.
Qed.

(** ** Reading texts *)

Lemma starts_with_spec s t :
  starts_with s t = true <-> exists b, t = s +:+ b.
Proof.
  revert t. induction s as [|a s IH]; intros t; simpl.
  - split; [eauto | reflexivity].
  - destruct t as [|c t].
    + split; [discriminate | intros [b [=]]].
    + rewrite andb_true_iff, IH. split.
      * intros [Hac [b ->]]. apply Ascii.eqb_eq in Hac as ->. eauto.
      * intros [b Hb]. rewrite append_cons in Hb. injection Hb as -> ->.
        split; [apply Ascii.eqb_refl | eauto].
Qed.

Lemma contains_spec s t :
  contains s t = true <-> exists a b, t = a +:+ s +:+ b.
Proof.
  induction t as [|c t IH]; simpl; rewrite orb_true_iff, starts_with_spec.
  - split.
    + intros [[b Hb]|]; [|discriminate]. exists "", b. exact Hb.
    + intros (a & b & H). left. destruct a as [|x a]; [eauto | discriminate].
  - rewrite IH. split.
    + intros [[b Hb]|(a & b & ->)].
      * exists "", b. exact Hb.
      * exists (String c a), b. reflexivity.
    + intros (a & b & H). destruct a as [|x a].
      * left. eauto.
      * right. rewrite append_cons in H. injection H as -> ->. eauto.
Qed.

Lemma not_contains s t :
  contains s t = false -> ~ exists a b, t = a +:+ s +:+ b.
Proof. intros H E. apply contains_spec in E. congruence. Qed.

(** ** Texts and paths *)

Lemma make_contents_not_empty project : make_contents project <> "".
Proof. unfold make_contents, GCC_MAKE_MACROS. rewrite !append_cons. discriminate. Qed.

Lemma file_text_not_empty cfg project ext : file_text cfg project ext <> "".
Proof.
  unfold file_text.
  destruct (literal_eqb _ _ _); [|destruct (literal_eqb _ _ _)];
    rewrite !append_cons; discriminate.
Qed.

Lemma layout_not_empty cfg dirname project :
  Forall (fun e => e.2 <> File "") (layout cfg dirname project).
Proof.
  unfold layout. cbv zeta.
  repeat (apply Forall_cons; split); try apply Forall_nil; cbn [snd];
    lazymatch goal with
    | |- True => exact I
    | |- Dir <> _ => discriminate
    | |- File _ <> _ =>
        intros [= H]; revert H;
        first [apply make_contents_not_empty | apply file_text_not_empty]
    end.
Qed.

Lemma layout_paths_differ cfg dirname project :
  NoDup (map fst (layout cfg dirname project)).
Proof.
  unfold layout. cbv zeta. cbn [map fst]. path_norm.
  repeat (apply NoDup_cons; split;
          [rewrite ?not_elem_of_cons; repeat split;
           first [apply not_elem_of_nil | path_neq] |]).
  apply NoDup_nil. exact I.
Qed.

Lemma fresh_root_empty o root rest :
  files (fresh root) !! (root +:+ String (sep o) rest) = None.
Proof.
  unfold fresh. cbn [files]. apply lookup_singleton_ne. apply shorter_differs.
Defined.

(** The root [/r] is ready for the project [demo]. *)
Lemma demo_root_is_fresh :
  fresh_root linux_cfg "/r" "demo" (files (fresh "/r")).
Proof.
  constructor.
  - simpl. repeat split; discriminate.
  - simpl. repeat split; discriminate.
  - reflexivity.
  - vm_compute. discriminate.
  - vm_compute. discriminate.
  - reflexivity.
  - apply (fresh_root_empty Linux).
Defined.

(** What [touch] writes for a name given with the extension of the C
    files, [file_ext[1]]. *)
Lemma file_text_dot_c cfg name :
  file_text cfg name (nth 1 file_ext no_literal) =
  if pooling cfg
  then "#include " +:+ dquote +:+ name +:+ ".h" +:+ dquote +:+ nl +:+ nl
       +:+ "/* Code goes here */" +:+ nl +:+ nl
  else "/* Project " +:+ name +:+ " */".
Proof.
  unfold file_text, literal_eqb, file_ext, touch_dot_h, touch_dot_c.
  cbn [nth text site]. destruct (pooling cfg); reflexivity.
Qed.

Lemma make_contents_lines project :
  make_contents project = unlines (makefile_lines project).
Proof.
  unfold make_contents, unlines, makefile_lines.
  unfold GCC_MAKE_MACROS, GCC_MAKE_DEPS, GCC_MAKE_OBJ, GCC_MAKE_OBJ_BUILD,
    GCC_MAKE_PHONY.
  cbn [String.concat]. rewrite !append_assoc. reflexivity.
Qed.

Lemma makefile_names_differ o dirname :
  join o dirname "Makefile" <> join o dirname "Makefile.win".
Proof. path_norm. path_neq. Qed.


(** ** The embedding on small inputs *)

Example cstr_stops_at_nul : cstr ("ab" +:+ String NUL "cd") = "ab".
Proof. reflexivity. Qed.

Example strclr_then_strcat :
  strcat (strclr "/r/lib" 3 (strlen "/r/lib")) "src" = "/r/src".
Proof. reflexivity. Qed.

Example strslice_widget : cstr (strslice "" "/home/alice/widget" "/") = "widget".
Proof. reflexivity. Qed.

(** Each initialiser fits its array ([128], [64], [4], [128], [128]) with
    its terminator. *)
Example constant_arrays_fit :
  fits 128 GCC_MAKE_MACROS && fits 64 GCC_MAKE_DEPS && fits 4 GCC_MAKE_OBJ
  && fits 128 GCC_MAKE_OBJ_BUILD && fits 128 GCC_MAKE_PHONY = true.
Proof. vm_compute. reflexivity. Qed.

Example header_of_demo :
  files (world_after (scaffold linux_cfg "/r" "demo") (fresh "/r")) !! "/r/lib/demo.h"
  = Some (File (unlines ["#ifndef DEMO_H"; "#define DEMO_H";
                         "/* Code goes here */"; ""; "#endif"])).
Proof. vm_compute. reflexivity. Qed.

Example no_argument_takes_the_directory_name :
  let cfg := Config Linux true (fun _ => Some "/home/alice/widget") (fun _ => "") in
  is_Some (files (world_after (main cfg ["projc"]) (fresh "/home/alice/widget"))
             !! "/home/alice/widget/lib/widget.h").
Proof. vm_compute. eauto. Qed.

(** * The claims *)

(** C1, as amended. After a full run with a project name [p] without
    separator, in an existing root with nothing below it and with names that
    fit the arrays of the program, the run ends with status 0 and the layout
    made is exactly: the directories [lib], [src], [test] and [include], the
    files [lib/p.h], [lib/p.c], [src/p_app.c] and [test/p_test.c], [Makefile]
    and [Makefile.win]; the ten paths differ, no file is empty and nothing is
    in [include]. The plain source file [p.c] is made in [lib], not in
    [src]. *)
Theorem scaffold_layout cfg dirname project w :
  fresh_root cfg dirname project (files w) ->
  exists w',
    scaffold cfg dirname project w = Ok (0, w') /\
    files w' = add_all (layout cfg dirname project) (files w) /\
    map fst (layout cfg dirname project) =
      (let o := platform cfg in
       [ join o dirname "lib"; join o dirname "src"; join o dirname "test";
         join o dirname "include";
         join o (join o dirname "lib") (project +:+ ".h");
         join o (join o dirname "lib") (project +:+ ".c");
         join o (join o dirname "src") (project +:+ "_app.c");
         join o (join o dirname "test") (project +:+ "_test.c");
         join o dirname "Makefile"; join o dirname "Makefile.win" ]) /\
    NoDup (map fst (layout cfg dirname project)) /\
    Forall (fun e => e.2 <> File "") (layout cfg dirname project) /\
    (forall rest,
       files w' !! join (platform cfg) (join (platform cfg) dirname "include") rest
       = None).
Proof.
  intros ready.
  destruct (scaffold_fresh cfg dirname project w ready) as (w' & Hrun & Hfs).
  exists w'. split; [exact Hrun|]. split; [exact Hfs|].
  split; [reflexivity|].
  split; [apply layout_paths_differ|].
  split; [apply layout_not_empty|].
  intros rest. rewrite Hfs. unfold add_all, layout. cbv zeta.
  cbn [fold_left fst snd]. path_norm.
  rewrite ?lookup_insert_ne by path_neq. apply (root_empty _ _ _ _ ready).
Qed.

(** The layout of the project [demo] in the root [/r]. *)
Lemma scaffold_layout_witness :
  exists w',
    scaffold linux_cfg "/r" "demo" (fresh "/r") = Ok (0, w') /\
    files w' = add_all (layout linux_cfg "/r" "demo") (files (fresh "/r")).
Proof.
  destruct (scaffold_layout linux_cfg "/r" "demo" (fresh "/r"))
    as (w' & Hrun & Hfs & _).
  - exact demo_root_is_fresh.
  - exists w'. split; assumption.
Defined.

(** C1 fails as stated: after the run for [demo] there is no
    [src/demo.c]. *)
Lemma plain_source_not_in_src :
  ~ (exists w',
       scaffold linux_cfg "/r" "demo" (fresh "/r") = Ok (0, w') /\
       is_Some (files w' !! "/r/src/demo.c")).
Proof.
  intros (w' & Hrun & n & Hn).
  vm_compute in Hrun. injection Hrun as <-.
  vm_compute in Hn. discriminate.
Qed.

Example plain_source_in_lib :
  files (world_after (scaffold linux_cfg "/r" "demo") (fresh "/r")) !! "/r/lib/demo.c"
  = Some (File ("#include " +:+ dquote +:+ "demo.h" +:+ dquote +:+ nl +:+ nl
                +:+ "/* Code goes here */" +:+ nl +:+ nl)).
Proof. vm_compute. reflexivity. Qed.

(** C2. A second run on the same root with the same project name, the
    first having ended without fault, ends with status 0 and leaves the file
    system as the first run left it: every entry is as it was, with its
    content; the first run had changed no entry either. The second run may
    come from another build of the same platform. *)
Theorem scaffold_idempotent cfg cfg' dirname project w a w1 :
  platform cfg' = platform cfg ->
  nul_free dirname ->
  scaffold cfg dirname project w = Ok (a, w1) ->
  files w ⊆ files w1 /\
  exists w2,
    scaffold cfg' dirname project w1 = Ok (0, w2) /\
    files w2 = files w1.
Proof.
  intros Hos HD Hrun.
  apply Ok_effect in Hrun. rewrite scaffold_plan in Hrun.
  split; [eapply run_grows; eassumption|].
  pose proof (scaffold_plan cfg' dirname project w1) as H2.
  rewrite Hos in H2.
  rewrite (run_settled (platform cfg) dirname (plan cfg dirname project)
             (plan cfg' dirname project) (files w) (files w1)) in H2;
    [ | by apply plan_same_shape | by apply plan_rooted | assumption ].
  apply effect_Ok in H2 as (a2 & w2 & Hrun2 & Hfs).
  pose proof (scaffold_exit _ _ _ _ _ _ Hrun2) as ->.
  eauto.
Qed.

(** Two runs for [demo] in [/r], the second from a build without pooled
    literals. *)
Lemma scaffold_idempotent_witness :
  let w1 := world_after (scaffold linux_cfg "/r" "demo") (fresh "/r") in
  files (fresh "/r") ⊆ files w1 /\
  exists w2,
    scaffold linux_unpooled_cfg "/r" "demo" w1 = Ok (0, w2) /\
    files w2 = files w1.
Proof.
  apply (scaffold_idempotent linux_cfg linux_unpooled_cfg "/r" "demo" (fresh "/r") 0).
  - reflexivity.
  - simpl. repeat split; discriminate.
  - vm_compute. reflexivity.
Defined.

(** C3, as amended. Each generated build file is: the macro block, the
    dependency list [_DEPS = p.h], the object list [_OBJ = p.o p_test.o] of
    two objects, the generic compile rule, and the target [p_app] built from
    [$(OBJ)], followed by the phony [clean]; the project name is put in at
    exactly four places, between the five constant fragments. *)
Theorem makefile_structure cfg dirname project w :
  fresh_root cfg dirname project (files w) ->
  exists w',
    scaffold cfg dirname project w = Ok (0, w') /\
    Forall (fun makename =>
              files w' !! join (platform cfg) dirname makename
              = Some (File (unlines (makefile_lines project))))
           ["Makefile"; "Makefile.win"] /\
    unlines (makefile_lines project) =
      GCC_MAKE_MACROS +:+ project +:+ GCC_MAKE_DEPS +:+ project +:+ GCC_MAKE_OBJ
      +:+ project +:+ "_test" +:+ GCC_MAKE_OBJ_BUILD +:+ project +:+ "_app"
      +:+ GCC_MAKE_PHONY.
Proof.
  intros ready.
  destruct (scaffold_fresh cfg dirname project w ready) as (w' & Hrun & Hfs).
  exists w'. split; [exact Hrun|].
  rewrite <- make_contents_lines. split; [|reflexivity].
  rewrite Hfs. unfold add_all, layout. cbv zeta. cbn [fold_left fst snd].
  repeat (apply Forall_cons; split); [| |apply Forall_nil; exact I].
  - path_norm. rewrite !lookup_insert_ne by path_neq. apply lookup_insert_eq.
  - path_norm. apply lookup_insert_eq.
Qed.

(** The build files of [demo]. *)
Lemma makefile_structure_witness :
  exists w',
    scaffold linux_cfg "/r" "demo" (fresh "/r") = Ok (0, w') /\
    files w' !! "/r/Makefile" = Some (File (unlines (makefile_lines "demo"))) /\
    files w' !! "/r/Makefile.win" = Some (File (unlines (makefile_lines "demo"))).
Proof.
  destruct (makefile_structure linux_cfg "/r" "demo" (fresh "/r"))
    as (w' & Hrun & Hfiles & _).
  - exact demo_root_is_fresh.
  - apply Forall_cons_1 in Hfiles as [H1 Hfiles].
    apply Forall_cons_1 in Hfiles as [H2 _].
    exists w'. repeat split; assumption.
Defined.

(** C3 fails as stated: the [Makefile] of [demo] has no object list naming
    [demo_test.o] alone (and [demo] occurs four times, not three). *)
Lemma makefile_names_two_objects :
  ~ (exists w' text,
       scaffold linux_cfg "/r" "demo" (fresh "/r") = Ok (0, w') /\
       files w' !! "/r/Makefile" = Some (File text) /\
       (exists a b, text = a +:+ ("_OBJ = demo_test.o" +:+ nl) +:+ b) /\
       occurrences "demo" text = 3%nat).
Proof.
  intros (w' & text & Hrun & Hmk & Hobj & _).
  vm_compute in Hrun. injection Hrun as <-.
  vm_compute in Hmk. injection Hmk as <-.
  revert Hobj. apply not_contains. vm_compute. reflexivity.
Qed.

Example makefile_demo_objects :
  nth 10 (makefile_lines "demo") "" = "_OBJ = demo.o demo_test.o" /\
  occurrences "demo" (make_contents "demo") = 4%nat.
Proof. split; vm_compute; reflexivity. Qed.

(** C4. What [strupper] does with [my_proj1]: the comparison chain of its
    test holds for every byte, so every byte is lowered by [0x20], the
    underscore to [?] and the digit [1] to the byte [0x11]; the result is
    not [MY_PROJ1]. *)
Theorem strupper_my_proj1 :
  cstr (strupper "" "my_proj1") = "MY?PROJ" +:+ String (chr 0x11) "" /\
  cstr (strupper "" "my_proj1") <> "MY_PROJ1" /\
  strupper_byte "_" = "?"%char /\
  strupper_byte "1" = chr 0x11 /\
  (forall c, strupper_byte c = chr (byte c - 0x20)).
Proof.
  split; [vm_compute; reflexivity|]. split; [vm_compute; discriminate|].
  split; [vm_compute; reflexivity|]. split; [vm_compute; reflexivity|].
  intros c. unfold strupper_byte.
  destruct (0x60 <? byte c); reflexivity.
Qed.

(** The guard of the header made for the project [my_proj1]. *)
Example header_guard_of_my_proj1 :
  file_text linux_cfg "my_proj1" (nth 0 file_ext no_literal)
  = unlines [ "#ifndef MY?PROJ" +:+ String (chr 0x11) "_H";
              "#define MY?PROJ" +:+ String (chr 0x11) "_H";
              "/* Code goes here */"; ""; "#endif" ].
Proof. vm_compute. reflexivity. Qed.

(** C5, as amended. The file [p_test.c] of the test directory has no
    rendering of its own: it is written through the same extension as
    [p.c] and [p_app.c] and holds the text [touch] gives a file of that
    extension, with its own stem [p_test] where they have theirs; it is the
    one-line comment stub exactly when they are. *)
Theorem test_file_text cfg dirname project w :
  fresh_root cfg dirname project (files w) ->
  exists w' plain app test,
    scaffold cfg dirname project w = Ok (0, w') /\
    files w' !! join (platform cfg) (join (platform cfg) dirname "lib")
                     (project +:+ ".c") = Some (File plain) /\
    files w' !! join (platform cfg) (join (platform cfg) dirname "src")
                     (project +:+ "_app.c") = Some (File app) /\
    files w' !! join (platform cfg) (join (platform cfg) dirname "test")
                     (project +:+ "_test.c") = Some (File test) /\
    plain = file_text cfg project (nth 1 file_ext no_literal) /\
    app = file_text cfg (project +:+ "_app") (nth 1 file_ext no_literal) /\
    test = file_text cfg (project +:+ "_test") (nth 1 file_ext no_literal) /\
    (test = "/* Project " +:+ project +:+ "_test */"
     <-> plain = "/* Project " +:+ project +:+ " */") /\
    (test = "/* Project " +:+ project +:+ "_test */"
     <-> app = "/* Project " +:+ project +:+ "_app */").
Proof.
  intros ready.
  destruct (scaffold_fresh cfg dirname project w ready) as (w' & Hrun & Hfs).
  exists w', (file_text cfg project (nth 1 file_ext no_literal)),
    (file_text cfg (project +:+ "_app") (nth 1 file_ext no_literal)),
    (file_text cfg (project +:+ "_test") (nth 1 file_ext no_literal)).
  split; [exact Hrun|].
  rewrite Hfs. unfold add_all, layout. cbv zeta. cbn [fold_left fst snd].
  split; [|split; [|split; [|split; [|split; [|split; [|split]]]]]].
  - path_norm. rewrite !lookup_insert_ne by path_neq. apply lookup_insert_eq.
  - path_norm. rewrite !lookup_insert_ne by path_neq. apply lookup_insert_eq.
  - path_norm. rewrite !lookup_insert_ne by path_neq. apply lookup_insert_eq.
  - reflexivity.
  - reflexivity.
  - reflexivity.
  - rewrite !file_text_dot_c. destruct (pooling cfg).
    + split; intros H; cbv in H; discriminate H.
    + split; intros _; rewrite ?append_assoc; reflexivity.
  - rewrite !file_text_dot_c. destruct (pooling cfg).
    + split; intros H; cbv in H; discriminate H.
    + split; intros _; rewrite ?append_assoc; reflexivity.
Qed.

(** The three C files of [demo]: the test file is the comment stub exactly
    when the plain source is. *)
Lemma test_file_text_witness :
  exists w' plain app test,
    scaffold linux_cfg "/r" "demo" (fresh "/r") = Ok (0, w') /\
    files w' !! "/r/lib/demo.c" = Some (File plain) /\
    files w' !! "/r/src/demo_app.c" = Some (File app) /\
    files w' !! "/r/test/demo_test.c" = Some (File test) /\
    (test = "/* Project demo_test */" <-> plain = "/* Project demo */").
Proof.
  destruct (test_file_text linux_cfg "/r" "demo" (fresh "/r"))
    as (w' & plain & app & test & Hrun & Hplain & Happ & Htest & _ & _ & _ & Hsame & _).
  - exact demo_root_is_fresh.
  - exists w', plain, app, test. repeat split; try assumption; apply Hsame.
Defined.

(** C5 fails as stated: on a build with pooled literals the test file of
    [demo] is not the one-line comment stub. *)
Lemma test_file_has_include :
  ~ (exists w' text,
       scaffold linux_cfg "/r" "demo" (fresh "/r") = Ok (0, w') /\
       files w' !! "/r/test/demo_test.c" = Some (File text) /\
       text = "/* Project demo_test */" /\
       ~ (exists a b, text = a +:+ "#include" +:+ b)).
Proof.
  intros (w' & text & Hrun & Htest & Htext & _).
  vm_compute in Hrun. injection Hrun as <-.
  vm_compute in Htest. subst text. discriminate.
Qed.

Example test_file_includes_a_header :
  exists text,
    files (world_after (scaffold linux_cfg "/r" "demo") (fresh "/r"))
      !! "/r/test/demo_test.c" = Some (File text) /\
    exists a b, text = a +:+ "#include" +:+ b.
Proof.
  eexists. split; [vm_compute; reflexivity|].
  apply contains_spec. vm_compute. reflexivity.
Qed.

(** C6. What is in [src/demo_app.c] after a run for [demo]: with pooled
    literals an [#include] of [demo_app.h], a header the run does not make;
    without pooling the comment stub. Neither holds an [#include] of
    [demo.h]. *)
Theorem app_file_text :
  exists pooled unpooled,
    files (world_after (scaffold linux_cfg "/r" "demo") (fresh "/r"))
      !! "/r/src/demo_app.c" = Some (File pooled) /\
    files (world_after (scaffold linux_unpooled_cfg "/r" "demo") (fresh "/r"))
      !! "/r/src/demo_app.c" = Some (File unpooled) /\
    pooled = "#include " +:+ dquote +:+ "demo_app.h" +:+ dquote +:+ nl +:+ nl
             +:+ "/* Code goes here */" +:+ nl +:+ nl /\
    unpooled = "/* Project demo_app */" /\
    contains ("#include " +:+ dquote +:+ "demo.h" +:+ dquote) pooled = false /\
    contains ("#include " +:+ dquote +:+ "demo.h" +:+ dquote) unpooled = false.
Proof.
  do 2 eexists. split; [vm_compute; reflexivity|].
  split; [vm_compute; reflexivity|].
  repeat split; vm_compute; reflexivity.
Qed.

(** C7, as amended. Started with two or more arguments after its name,
    the program ends with status 1, prints nothing and leaves the file
    system as it is. *)
Theorem main_too_many_arguments cfg prog arg1 arg2 rest w :
  main cfg (prog :: arg1 :: arg2 :: rest) w = Ok (1, w).
Proof.
  unfold main. cbn [length].
  destruct (Z.eqb_spec (Z.of_nat (S (S (S (length rest))))) 2); [lia|].
  destruct (Z.eqb_spec (Z.of_nat (S (S (S (length rest))))) 1); [lia|].
  reflexivity.
Qed.

(** C7 fails as stated: with two arguments nothing is printed. *)
Lemma main_prints_no_usage :
  ~ (exists w',
       main linux_cfg ["projc"; "one"; "two"] (fresh "/r") = Ok (1, w') /\
       stdout w' <> stdout (fresh "/r") /\
       files w' = files (fresh "/r")).
Proof.
  intros (w' & Hrun & Hout & _).
  vm_compute in Hrun. injection Hrun as <-.
  apply Hout. reflexivity.
Qed.

(** C8. With one argument whose path does not resolve, [main] does not
    end with status 1: the test [dirname == NULL] is on the array, not on
    what [abspath] returned, and the run goes on with what the array held. *)
Theorem main_unresolved_path_goes_on cfg prog arg w :
  canon cfg arg = None ->
  ~ (exists w', main cfg [prog; arg] w = Ok (1, w')).
Proof.
  intros Hcanon (w' & Hrun). unfold main in Hrun. cbn [length nth] in Hrun.
  change (Z.of_nat 2 =? 2) with true in Hrun. cbv beta iota zeta in Hrun.
  apply bind_Ok_inv in Hrun as (project & w1 & _ & Hrun).
  cbn [is_null] in Hrun.
  apply scaffold_exit in Hrun. discriminate.
Qed.

(** A path that does not resolve, in a build where nothing does. *)
Lemma main_unresolved_path_goes_on_witness :
  canon unresolved_cfg "nowhere" = None /\
  ~ (exists w', main unresolved_cfg ["projc"; "nowhere"] (fresh "/r") = Ok (1, w')).
Proof.
  split; [reflexivity|].
  apply (main_unresolved_path_goes_on unresolved_cfg "projc" "nowhere" (fresh "/r")).
  reflexivity.
Defined.

Example main_unresolved_path_scaffolds :
  let run := main unresolved_cfg ["projc"; "nowhere"] in
  outcome run (fresh "/r") = Ok 0 /\
  files (world_after run (fresh "/r")) !! "/r/lib" = Some Dir /\
  is_Some (files (world_after run (fresh "/r")) !! "/r/lib/nowhere.h") /\
  is_Some (files (world_after run (fresh "/r")) !! "/r/Makefile").
Proof. repeat split; vm_compute; eauto. Qed.

(** What [touch] and [create_dir] do with a path that is too long: they
    report the failure and leave the world as it is. *)
Lemma touch_too_long cfg path project ext w :
  PATH_MAX (platform cfg) < len path + len project + len (text ext) ->
  touch cfg path project ext w = Ok (0, w).
Proof.
  intros H. unfold touch.
  destruct (Z.ltb_spec (PATH_MAX (platform cfg))
              (len path + len project + len (text ext))); [|lia].
  cbv zeta. change (0 =? 0) with true. cbv beta iota.
  unfold exists_, bind, stat, ret. rewrite andb_false_r. reflexivity.
Qed.

Lemma create_dir_too_long cfg dirname destname w :
  PATH_MAX (platform cfg) < len dirname + len destname ->
  create_dir cfg dirname destname w = Ok (0, w).
Proof.
  intros H. unfold create_dir.
  destruct (Z.ltb_spec (PATH_MAX (platform cfg)) (len dirname + len destname));
    [reflexivity | lia].
Qed.

(** C9. [makefile_create] checks no length: where the root, the separator,
    the name of the build file and the terminator exceed [PATH_MAX], the
    path is written past the end of [make]. *)
Theorem makefile_create_unchecked cfg makename project dirname w :
  PATH_MAX (platform cfg) < len dirname + 1 + len makename + 1 ->
  makefile_create cfg makename project dirname w = Fault BufferOverrun.
Proof.
  intros H. unfold makefile_create, bind, store.
  rewrite !len_append. change (len (str (sep (platform cfg)))) with 1.
  destruct (Z.leb_spec (len dirname + (1 + len makename) + 1) (PATH_MAX (platform cfg)));
    [lia | reflexivity].
Qed.

(** A root of 250 bytes on Windows and [Makefile.win]. *)
Lemma makefile_create_unchecked_witness :
  PATH_MAX Windows < len (long_dir 250) + 1 + len "Makefile.win" + 1 /\
  makefile_create windows_cfg "Makefile.win" "demoproject" (long_dir 250)
                  (fresh (long_dir 250)) = Fault BufferOverrun.
Proof.
  split; [vm_compute; reflexivity|].
  apply (makefile_create_unchecked windows_cfg).
  vm_compute. reflexivity.
Defined.

Example overlong_root_stops_the_run :
  outcome (scaffold windows_cfg (long_dir 250) "demoproject") (fresh (long_dir 250))
  = Fault BufferOverrun.
Proof. vm_compute. reflexivity. Qed.

Example touch_checks_path_length :
  outcome (touch windows_cfg (long_dir 250 +:+ str (sep Windows) +:+ "lib")
                 "demoproject" (nth 0 file_ext no_literal))
          (fresh (long_dir 250))
  = Ok 0.
Proof. vm_compute. reflexivity. Qed.

Example touch_check_is_two_short :
  outcome (touch windows_cfg (long_dir 250 +:+ str (sep Windows) +:+ "lib")
                 "demo" (nth 0 file_ext no_literal))
          (fresh (long_dir 250))
  = Fault BufferOverrun.
Proof. vm_compute. reflexivity. Qed.

(** C10. The build files a call of [create_makes] generates, none of the
    two being there before, have the same content, the text made from the
    one set of fragments; the name of the variant is the name of the file
    only. *)
Theorem makefiles_identical cfg dirname project w w' :
  create_makes cfg dirname project w = Ok (tt, w') ->
  files w !! join (platform cfg) dirname "Makefile" = None ->
  files w !! join (platform cfg) dirname "Makefile.win" = None ->
  exists text,
    files w' !! join (platform cfg) dirname "Makefile" = Some (File text) /\
    files w' !! join (platform cfg) dirname "Makefile.win" = Some (File text) /\
    text = make_contents project.
Proof.
  intros Hrun Hmk Hwin. exists (make_contents project).
  apply Ok_effect in Hrun. rewrite create_makes_implements in Hrun.
  unfold makes_plan, makefile_action in Hrun. cbn [map run] in Hrun.
  fold (join (platform cfg) dirname "Makefile") in Hrun.
  fold (join (platform cfg) dirname "Makefile.win") in Hrun.
  destruct (fits (PATH_MAX (platform cfg)) (join (platform cfg) dirname "Makefile"));
    [|discriminate].
  destruct (fits 432 (make_contents project)).
  - cbn [act] in Hrun. rewrite Hmk in Hrun.
    destruct (parent_is_dir _ _ _); [|discriminate].
    destruct (fits _ _); [|discriminate].
    cbn [act] in Hrun.
    rewrite lookup_insert_ne, Hwin in Hrun by apply makefile_names_differ.
    destruct (parent_is_dir _ _ _); [|discriminate].
    injection Hrun as <-.
    split; [|split; [|reflexivity]].
    + rewrite lookup_insert_ne by (apply not_eq_sym, makefile_names_differ).
      apply lookup_insert_eq.
    + apply lookup_insert_eq.
  - cbn [act] in Hrun. rewrite Hmk in Hrun. discriminate.
Qed.

(** The two build files of [demo]. *)
Lemma makefiles_identical_witness :
  exists text,
    files (world_after (create_makes linux_cfg "/r" "demo") (fresh "/r"))
      !! "/r/Makefile" = Some (File text) /\
    files (world_after (create_makes linux_cfg "/r" "demo") (fresh "/r"))
      !! "/r/Makefile.win" = Some (File text) /\
    text = make_contents "demo".
Proof.
  apply (makefiles_identical linux_cfg "/r" "demo" (fresh "/r")).
  - vm_compute. reflexivity.
  - vm_compute. reflexivity.
  - vm_compute. reflexivity.
Defined.

(** * Further properties of the program *)

(** ** Arrays of char *)

Lemma peek_nil i : peek "" i = NUL.
Proof. destruct i; reflexivity. Qed.

Lemma peek_poke s j c i :
  peek (poke s j c) i = if Nat.eqb i j then c else peek s i.
Proof.
  revert s i. induction j as [|j IH]; intros s i.
  - destruct s, i; simpl; rewrite ?peek_nil; reflexivity.
  - destruct s as [|b s], i as [|i]; simpl; rewrite ?IH, ?peek_nil; reflexivity.
Qed.

Lemma peek_written (g : nat -> ascii) n a s i :
  peek (fold_left (fun t j => poke t j (g j)) (seq a n) s) i =
  if (a <=? i)%nat && (i <? a + n)%nat then g i else peek s i.
Proof.
  revert a s. induction n as [|n IH]; intros a s; simpl.
  - destruct (Nat.leb_spec a i), (Nat.ltb_spec i (a + 0)); simpl; try reflexivity; lia.
  - rewrite IH, peek_poke.
    destruct (Nat.leb_spec (S a) i), (Nat.ltb_spec i (S a + n)),
      (Nat.leb_spec a i), (Nat.ltb_spec i (a + S n)), (Nat.eqb_spec i a);
      simpl; subst; try reflexivity; lia.
Qed.

Lemma peek_append a b k : peek (a +:+ b) (String.length a + k) = peek b k.
Proof.
  induction a as [|x a IH]; [reflexivity|]. rewrite append_cons. simpl. exact IH.
Qed.

Lemma peek_past s i : (String.length s <= i)%nat -> peek s i = NUL.
Proof.
  revert i. induction s as [|x s IH]; intros i H; [apply peek_nil|].
  destruct i; simpl in *; [lia|]. apply IH. lia.
Qed.

Lemma peek_plain c name k :
  c <> NUL -> dir_part c name = None -> peek name k <> c.
Proof.
  intros Hc. revert k. induction name as [|x name IH]; intros k H.
  - rewrite peek_nil. congruence.
  - simpl in H. destruct (dir_part c name); [discriminate|].
    destruct (Ascii.eqb_spec x c); [discriminate|].
    destruct k; simpl; [assumption | auto].
Qed.

Lemma written_shift (g : nat -> ascii) h r k n :
  fold_left (fun t i => poke t i (g i)) (seq (S k) n) (String h r) =
  String h (fold_left (fun t i => poke t i (g (S i))) (seq k n) r).
Proof.
  revert k r. induction n as [|n IH]; intros k r; simpl; [reflexivity|].
  apply IH.
Qed.

Lemma copy_cstr s : forall dest (g : nat -> ascii),
  (forall i, g i = peek s i) -> nul_free s ->
  cstr (fold_left (fun t i => poke t i (g i)) (seq 0 (S (String.length s))) dest) = s.
Proof.
  induction s as [|a s IH]; intros dest g Hg Hs.
  - simpl. rewrite (Hg 0%nat). destruct dest; reflexivity.
  - destruct Hs as [Ha Hs].
    change (seq 0 (S (String.length (String a s))))
      with (0%nat :: seq 1 (S (String.length s))).
    cbn [fold_left].
    assert (Hp : exists r, poke dest 0 (g 0%nat) = String a r).
    { rewrite (Hg 0%nat). destruct dest; simpl; eauto. }
    destruct Hp as [r ->].
    rewrite written_shift. simpl.
    destruct (Ascii.eqb_spec a NUL); [contradiction|].
    f_equal. apply IH; [|assumption]. intros i. apply (Hg (S i)).
Qed.

Lemma scan_back_none str c k :
  (forall i, peek str i <> c) -> scan_back str c k = None.
Proof.
  intros H. induction k as [|k IH]; simpl.
  - destruct (Ascii.eqb_spec (peek str 0) c); [|reflexivity].
    exfalso; eapply H; eassumption.
  - destruct (Ascii.eqb_spec (peek str (S k)) c); [|exact IH].
    exfalso; eapply H; eassumption.
Qed.

Lemma scan_back_last d c name k :
  (forall i, peek name i <> c) ->
  scan_back (d +:+ String c name) c (String.length d + k) = Some (String.length d).
Proof.
  intros H. induction k as [|k IH].
  - rewrite Nat.add_0_r.
    assert (E : peek (d +:+ String c name) (String.length d) = c).
    { rewrite <- (Nat.add_0_r (String.length d)), peek_append. reflexivity. }
    destruct (String.length d); simpl; rewrite E, Ascii.eqb_refl; reflexivity.
  - rewrite Nat.add_succ_r. simpl.
    rewrite <- Nat.add_succ_r, peek_append. simpl.
    destruct (Ascii.eqb_spec (peek name k) c); [exfalso; eapply H; eassumption|].
    exact IH.
Qed.


Lemma strslice_copies_last_segment c dest d name :
  c <> NUL -> nul_free d -> nul_free name -> dir_part c name = None ->
  cstr (strslice dest (d +:+ String c name) c) = name.
Proof.
  intros Hc Hd Hname Hplain. unfold strslice.
  assert (Hfree : nul_free (d +:+ String c name)).
  { apply nul_free_append; [assumption|]. split; assumption. }
  rewrite strlen_nul_free by assumption.
  rewrite length_append. cbn [String.length].
  rewrite scan_back_last by (intros i; apply peek_plain; assumption).
  replace (String.length d + S (String.length name) - String.length d)%nat
    with (S (String.length name)) by lia.
  apply copy_cstr; [|assumption].
  intros i. rewrite <- Nat.add_assoc, peek_append. reflexivity.
Qed.

Lemma strslice_leaves_dest c dest str :
  c <> NUL -> dir_part c str = None -> strslice dest str c = dest.
Proof.
  intros Hc Hplain. unfold strslice.
  rewrite scan_back_none; [reflexivity|].
  intros i. apply peek_plain; assumption.
Qed.

(** X1. [strslice] on a path ending in a separator and a name without
    separator leaves the name, with its terminator, in [dest], whatever
    [dest] held. *)
Theorem strslice_last_segment o dest d name :
  nul_free d -> nul_free name -> dir_part (sep o) name = None ->
  cstr (strslice dest (join o d name) (sep o)) = name.
Proof.
  intros Hd Hname Hplain.
  apply strslice_copies_last_segment; try assumption. apply sep_not_nul.
Qed.

(** The last segment of [/home/alice/widget]. *)
Lemma strslice_last_segment_witness :
  cstr (strslice "old bytes of project" "/home/alice/widget" "/") = "widget".
Proof.
  apply (strslice_last_segment Linux "old bytes of project" "/home/alice" "widget").
  - simpl. repeat split; discriminate.
  - simpl. repeat split; discriminate.
  - reflexivity.
Defined.

(** X2. On a string without separator [strslice] writes nothing: it sets
    its own pointer to NULL, which its caller does not see, and [dest] is
    as it was. *)
Theorem strslice_without_separator o dest str :
  dir_part (sep o) str = None -> strslice dest str (sep o) = dest.
Proof. intros Hplain. apply strslice_leaves_dest; [apply sep_not_nul | assumption]. Qed.

(** A name without separator. *)
Lemma strslice_without_separator_witness :
  strslice "old bytes" "widget" "/" = "old bytes".
Proof.
  apply (strslice_without_separator Linux "old bytes" "widget"). reflexivity.
Defined.

(** X3. [strclr] sets the bytes from [strt] up to [ssize], the last one
    excluded, to NUL and no other byte; nothing is written when [ssize] is
    not above [strt]. *)
Theorem strclr_clears_the_range str strt ssize i :
  peek (strclr str strt ssize) i =
  if (strt <=? i)%nat && (i <? ssize)%nat then NUL else peek str i.
Proof.
  unfold strclr. rewrite (peek_written (fun _ => NUL)).
  destruct (Nat.leb_spec strt i), (Nat.ltb_spec i ssize),
    (Nat.ltb_spec i (strt + (ssize - strt))); simpl; try reflexivity; lia.
Qed.

(** X4. [strupper] stores, at each index below the length of [str], the
    byte of [str] lowered by [0x20], and nothing else: no terminator is
    written and [dest] keeps what it held from that index on. *)
Theorem strupper_writes_no_terminator dest str i :
  peek (strupper dest str) i =
  if (i <? strlen str)%nat then chr (byte (peek str i) - 0x20) else peek dest i.
Proof.
  unfold strupper.
  rewrite (peek_written (fun j => strupper_byte (peek str j))). simpl.
  destruct (Nat.ltb_spec i (strlen str)); [|reflexivity].
  unfold strupper_byte. destruct (0x60 <? byte (peek str i)); reflexivity.
Qed.

(** ** One call *)

Lemma len_join o dir name : len (join o dir name) = len dir + 1 + len name.
Proof. unfold join. rewrite !len_append. change (len (str (sep o))) with 1. lia. Qed.


(** X5. [create_dir] returns 0 exactly when the lengths of root and name
    exceed [PATH_MAX] or the path exists, and then changes nothing; else it
    returns 1, prints nothing and has at most made that directory. *)
Theorem create_dir_refusal cfg dirname destname w r w' :
  create_dir cfg dirname destname w = Ok (r, w') ->
  (r = 0 <-> PATH_MAX (platform cfg) < len dirname + len destname
             \/ is_Some (files w !! join (platform cfg) dirname destname)) /\
  (r = 0 -> w' = w) /\
  (r <> 0 -> r = 1 /\ stdout w' = stdout w /\
             (files w' = files w \/
              files w' = <[join (platform cfg) dirname destname := Dir]> (files w))).
Proof.
  unfold create_dir. fold (join (platform cfg) dirname destname).
  destruct (Z.ltb_spec (PATH_MAX (platform cfg)) (len dirname + len destname)) as [Hlong|Hlong].
  - intros [= <- <-]. split; [split; [intros _; left; exact Hlong | reflexivity]|].
    split; [reflexivity | congruence].
  - unfold mk_dir, exists_. unfold bind, store, stat, os_mkdir, ret.
    destruct (_ <=? _); [|discriminate].
    destruct (files w !! join (platform cfg) dirname destname) eqn:E.
    + change (0 + 1 =? 0) with false. cbv beta iota.
      intros [= <- <-]. split; [split; [intros _; right; eauto | reflexivity]|].
      split; [reflexivity | congruence].
    + change (-1 + 1 =? 0) with true. cbv beta iota. rewrite E.
      change (-1 =? -1) with true. cbv beta iota. rewrite E.
      destruct (parent_is_dir _ _ _); intros [= <- <-];
        (split; [split; [discriminate | intros [?|[? ?]]; [lia | discriminate]]|]);
        (split; [discriminate|]); intros _; cbn [files stdout]; auto.
Qed.

(** The directory [lib] made in [/r]. *)
Lemma create_dir_refusal_witness :
  let w' := world_after (create_dir linux_cfg "/r" "lib") (fresh "/r") in
  (1 = 0 <-> PATH_MAX Linux < len "/r" + len "lib"
             \/ is_Some (files (fresh "/r") !! join Linux "/r" "lib")) /\
  (1 = 0 -> w' = fresh "/r") /\
  (1 <> 0 -> 1 = 1 /\ stdout w' = stdout (fresh "/r") /\
             (files w' = files (fresh "/r") \/
              files w' = <[join Linux "/r" "lib" := Dir]> (files (fresh "/r")))).
Proof.
  apply (create_dir_refusal linux_cfg "/r" "lib" (fresh "/r")).
  vm_compute. reflexivity.
Defined.

(** X6. [create_dir] does not look at what making the directory came to:
    where the directory it goes into is missing, it returns 1, as for a
    directory made, and the world is as it was. *)
Theorem create_dir_reports_unmade cfg dirname destname w :
  len dirname + len destname + 2 <= PATH_MAX (platform cfg) ->
  files w !! join (platform cfg) dirname destname = None ->
  parent_is_dir (platform cfg) (files w) (join (platform cfg) dirname destname) = false ->
  create_dir cfg dirname destname w = Ok (1, w).
Proof.
  intros Hfit Habsent Hparent. unfold create_dir. fold (join (platform cfg) dirname destname).
  destruct (Z.ltb_spec (PATH_MAX (platform cfg)) (len dirname + len destname)); [lia|].
  unfold mk_dir, exists_. unfold bind, store, stat, os_mkdir, ret.
  rewrite len_join.
  destruct (Z.leb_spec (len dirname + 1 + len destname + 1) (PATH_MAX (platform cfg))); [|lia].
  rewrite Habsent. change (-1 + 1 =? 0) with true. cbv beta iota.
  rewrite Habsent. change (-1 =? -1) with true. cbv beta iota.
  rewrite Habsent, Hparent. reflexivity.
Qed.

(** A root that is not there. *)
Lemma create_dir_reports_unmade_witness :
  create_dir linux_cfg "/r" "lib" nowhere = Ok (1, nowhere).
Proof.
  apply (create_dir_reports_unmade linux_cfg "/r" "lib" nowhere).
  - vm_compute. discriminate.
  - reflexivity.
  - reflexivity.
Defined.

(** X7. The test of [create_dir] leaves the separator and the terminator
    out: lengths of [PATH_MAX] or one below pass it and the path is written
    past the end of [destdir]. *)
Theorem create_dir_check_two_short cfg dirname destname w :
  PATH_MAX (platform cfg) - 2 < len dirname + len destname <= PATH_MAX (platform cfg) ->
  create_dir cfg dirname destname w = Fault BufferOverrun.
Proof.
  intros H. unfold create_dir. fold (join (platform cfg) dirname destname).
  destruct (Z.ltb_spec (PATH_MAX (platform cfg)) (len dirname + len destname)); [lia|].
  unfold bind, store. rewrite len_join.
  destruct (Z.leb_spec (len dirname + 1 + len destname + 1) (PATH_MAX (platform cfg)));
    [lia | reflexivity].
Qed.

(** A root of 256 bytes on Windows. *)
Lemma create_dir_check_two_short_witness :
  create_dir windows_cfg (long_dir 256) "lib" (fresh (long_dir 256))
  = Fault BufferOverrun.
Proof.
  apply (create_dir_check_two_short windows_cfg).
  vm_compute. split; [reflexivity | discriminate].
Defined.

(** X8. What a call of [touch] that returns has done: nothing, returning
    0, or, returning 1, made the file, which was not there, with the text
    for its name and extension; it prints nothing. *)
Theorem touch_result cfg path project ext w r w' :
  touch cfg path project ext w = Ok (r, w') ->
  (r = 0 /\ w' = w) \/
  (r = 1 /\
   files w !! join (platform cfg) path (project +:+ text ext) = None /\
   w' = World (<[join (platform cfg) path (project +:+ text ext)
                 := File (file_text cfg project ext)]> (files w)) (stdout w)).
Proof.
  unfold touch. fold (join (platform cfg) path (project +:+ text ext)).
  destruct (_ <? _).
  - cbv zeta. change (0 =? 0) with true. cbv beta iota.
    unfold exists_, bind, stat, ret. rewrite andb_false_r.
    intros [= <- <-]. left. split; reflexivity.
  - cbv zeta. change (1 =? 0) with false. cbv beta iota.
    unfold exists_. unfold bind, store, stat, fopen_w, fprintf, fclose, ret, crash.
    destruct (_ <=? _); [|discriminate].
    destruct (files w !! join (platform cfg) path (project +:+ text ext)) eqn:E.
    + change (0 + 1 =? 0) with false. cbn [andb]. cbv beta iota.
      intros [= <- <-]. left. split; reflexivity.
    + change (-1 + 1 =? 0) with true. cbn [andb negb]. cbv beta iota. rewrite E.
      destruct (parent_is_dir _ _ _); cbn [files stdout]; [|discriminate].
      rewrite lookup_insert_eq. cbn [files stdout]. rewrite insert_insert_eq.
      intros [= <- <-]. right. repeat split.
Qed.

(** The source [demo.c] made in [/r/lib]. *)
Lemma touch_result_witness :
  let w' := world_after (touch linux_cfg "/r/lib" "demo" (nth 1 file_ext no_literal))
                        started in
  (1 = 0 /\ w' = started) \/
  (1 = 1 /\
   files started !! join Linux "/r/lib" ("demo" +:+ ".c") = None /\
   w' = World (<[join Linux "/r/lib" ("demo" +:+ ".c")
                 := File (file_text linux_cfg "demo" (nth 1 file_ext no_literal))]>
                 (files started)) (stdout started)).
Proof.
  apply (touch_result linux_cfg "/r/lib" "demo" (nth 1 file_ext no_literal) started).
  vm_compute. reflexivity.
Defined.

(** X9. [touch] on a path that exists, file or directory, returns 0 and
    changes nothing: a file is never opened again. *)
Theorem touch_keeps_existing cfg path project ext w :
  len path + len project + len (text ext) + 2 <= PATH_MAX (platform cfg) ->
  is_Some (files w !! join (platform cfg) path (project +:+ text ext)) ->
  touch cfg path project ext w = Ok (0, w).
Proof.
  intros Hfit [n Hn]. unfold touch. fold (join (platform cfg) path (project +:+ text ext)).
  destruct (Z.ltb_spec (PATH_MAX (platform cfg)) (len path + len project + len (text ext))); [lia|].
  cbv zeta. change (1 =? 0) with false. cbv beta iota.
  unfold exists_. unfold bind, store, stat, ret.
  rewrite len_join, len_append.
  destruct (Z.leb_spec (len path + 1 + (len project + len (text ext)) + 1) (PATH_MAX (platform cfg))); [|lia].
  rewrite Hn. reflexivity.
Qed.

(** The header that is there with a text of its own. *)
Lemma touch_keeps_existing_witness :
  touch linux_cfg "/r/lib" "demo" (nth 0 file_ext no_literal) started
  = Ok (0, started).
Proof.
  apply (touch_keeps_existing linux_cfg "/r/lib" "demo").
  - vm_compute. discriminate.
  - vm_compute. eauto.
Defined.

(** X10. [touch] for a file whose directory is missing: [fopen] returns
    NULL, 0 is noted, and [fclose] is called with the null stream. *)
Theorem touch_in_missing_directory cfg path project ext w :
  len path + len project + len (text ext) + 2 <= PATH_MAX (platform cfg) ->
  files w !! join (platform cfg) path (project +:+ text ext) = None ->
  parent_is_dir (platform cfg) (files w) (join (platform cfg) path (project +:+ text ext)) = false ->
  touch cfg path project ext w = Fault NullStream.
Proof.
  intros Hfit Habsent Hparent. unfold touch. fold (join (platform cfg) path (project +:+ text ext)).
  destruct (Z.ltb_spec (PATH_MAX (platform cfg)) (len path + len project + len (text ext))); [lia|].
  cbv zeta. change (1 =? 0) with false. cbv beta iota.
  unfold exists_. unfold bind, store, stat, fopen_w, fclose, ret, crash.
  rewrite len_join, len_append.
  destruct (Z.leb_spec (len path + 1 + (len project + len (text ext)) + 1) (PATH_MAX (platform cfg))); [|lia].
  rewrite Habsent. change (-1 + 1 =? 0) with true. cbn [andb negb]. cbv beta iota.
  rewrite Habsent, Hparent. reflexivity.
Qed.

(** A root without [lib]. *)
Lemma touch_in_missing_directory_witness :
  touch linux_cfg "/r/lib" "demo" (nth 0 file_ext no_literal) (fresh "/r")
  = Fault NullStream.
Proof.
  apply (touch_in_missing_directory linux_cfg "/r/lib" "demo").
  - vm_compute. discriminate.
  - reflexivity.
  - reflexivity.
Defined.

(** X11. The test of [touch] leaves the separator and the terminator out:
    lengths of [PATH_MAX] or one below pass it and the path is written past
    the end of [fullpath]. *)
Theorem touch_check_two_short cfg path project ext w :
  PATH_MAX (platform cfg) - 2 < len path + len project + len (text ext) <= PATH_MAX (platform cfg) ->
  touch cfg path project ext w = Fault BufferOverrun.
Proof.
  intros H. unfold touch. fold (join (platform cfg) path (project +:+ text ext)).
  destruct (Z.ltb_spec (PATH_MAX (platform cfg)) (len path + len project + len (text ext))); [lia|].
  cbv zeta. change (1 =? 0) with false. cbv beta iota.
  unfold bind, store. rewrite len_join, len_append.
  destruct (Z.leb_spec (len path + 1 + (len project + len (text ext)) + 1) (PATH_MAX (platform cfg)));
    [lia | reflexivity].
Qed.

(** A path of 260 bytes without separator and terminator. *)
Lemma touch_check_two_short_witness :
  touch windows_cfg (long_dir 250 +:+ str (sep Windows) +:+ "lib") "demo"
        (nth 0 file_ext no_literal) (fresh (long_dir 250))
  = Fault BufferOverrun.
Proof.
  apply (touch_check_two_short windows_cfg).
  vm_compute. split; [reflexivity | discriminate].
Defined.

(** X12. [makefile_create] on a path that exists returns 0 and changes
    nothing, whatever is there. *)
Theorem makefile_create_keeps_existing cfg makename project dirname w :
  len dirname + len makename + 2 <= PATH_MAX (platform cfg) ->
  is_Some (files w !! join (platform cfg) dirname makename) ->
  makefile_create cfg makename project dirname w = Ok (0, w).
Proof.
  intros Hfit [n Hn]. unfold makefile_create. fold (join (platform cfg) dirname makename).
  unfold exists_. unfold bind, store, stat, ret. rewrite len_join.
  destruct (Z.leb_spec (len dirname + 1 + len makename + 1) (PATH_MAX (platform cfg))); [|lia].
  rewrite Hn. reflexivity.
Qed.

(** The build file that is there with a text of its own. *)
Lemma makefile_create_keeps_existing_witness :
  makefile_create linux_cfg "Makefile" "demo" "/r" started = Ok (0, started).
Proof.
  apply (makefile_create_keeps_existing linux_cfg "Makefile" "demo" "/r").
  - vm_compute. discriminate.
  - vm_compute. eauto.
Defined.

(** X13. The text of a build file is 299 bytes and four times the project
    name: with a name of more than 33 bytes it is written, once the file is
    open, past the end of [make_contents]. *)
Theorem makefile_create_long_name cfg makename project dirname w :
  len dirname + len makename + 2 <= PATH_MAX (platform cfg) ->
  files w !! join (platform cfg) dirname makename = None ->
  parent_is_dir (platform cfg) (files w) (join (platform cfg) dirname makename) = true ->
  33 < len project ->
  makefile_create cfg makename project dirname w = Fault BufferOverrun.
Proof.
  intros Hfit Habsent Hparent Hlong. unfold makefile_create.
  fold (join (platform cfg) dirname makename).
  unfold exists_. unfold bind, store, stat, fopen_w, ret, crash. rewrite len_join.
  destruct (Z.leb_spec (len dirname + 1 + len makename + 1) (PATH_MAX (platform cfg))); [|lia].
  rewrite Habsent. change (-1 + 1 =? 0) with true. cbv beta iota.
  rewrite Habsent, Hparent. rewrite len_make_contents.
  destruct (Z.leb_spec (299 + 4 * len project + 1) 432); [lia | reflexivity].
Qed.

(** A project name of 34 bytes. *)
Lemma makefile_create_long_name_witness :
  makefile_create linux_cfg "Makefile" (replicate_byte 34 "p") "/r" (fresh "/r")
  = Fault BufferOverrun.
Proof.
  apply (makefile_create_long_name linux_cfg).
  - vm_compute. discriminate.
  - reflexivity.
  - reflexivity.
  - vm_compute. reflexivity.
Defined.

(** X14. [makefile_create] in a root that is missing: [fopen] returns
    NULL, 0 is noted, and [fclose] is called with the null stream. *)
Theorem makefile_create_in_missing_directory cfg makename project dirname w :
  len dirname + len makename + 2 <= PATH_MAX (platform cfg) ->
  files w !! join (platform cfg) dirname makename = None ->
  parent_is_dir (platform cfg) (files w) (join (platform cfg) dirname makename) = false ->
  makefile_create cfg makename project dirname w = Fault NullStream.
Proof.
  intros Hfit Habsent Hparent. unfold makefile_create.
  fold (join (platform cfg) dirname makename).
  unfold exists_. unfold bind, store, stat, fopen_w, fclose, ret, crash. rewrite len_join.
  destruct (Z.leb_spec (len dirname + 1 + len makename + 1) (PATH_MAX (platform cfg))); [|lia].
  rewrite Habsent. change (-1 + 1 =? 0) with true. cbv beta iota.
  rewrite Habsent, Hparent. reflexivity.
Qed.

(** A root that is not there. *)
Lemma makefile_create_in_missing_directory_witness :
  makefile_create linux_cfg "Makefile" "demo" "/r" nowhere = Fault NullStream.
Proof.
  apply (makefile_create_in_missing_directory linux_cfg).
  - vm_compute. discriminate.
  - reflexivity.
  - reflexivity.
Defined.

(** ** Calls together *)

Lemma plain_literal o s :
  dir_part (sep Windows) s = None -> dir_part (sep Linux) s = None ->
  dir_part (sep o) s = None.
Proof. destruct o; auto. Qed.

(** X15. [create_makes] in a root that has a [Makefile] and no
    [Makefile.win]: the first is left as it is, the second is made, and
    the failure of the first does not end the loop. *)
Theorem create_makes_fills_in cfg dirname project w :
  len dirname + 14 <= PATH_MAX (platform cfg) ->
  len project <= 33 ->
  files w !! dirname = Some Dir ->
  is_Some (files w !! join (platform cfg) dirname "Makefile") ->
  files w !! join (platform cfg) dirname "Makefile.win" = None ->
  exists w',
    create_makes cfg dirname project w = Ok (tt, w') /\
    files w' = <[join (platform cfg) dirname "Makefile.win"
                 := File (make_contents project)]> (files w).
Proof.
  intros Hfit Hmk Hroot [n Hn] Hwin.
  pose proof (len_nonneg dirname).
  pose proof (create_makes_implements cfg dirname project w) as Hplan.
  unfold makes_plan in Hplan. cbn [map] in Hplan.
  rewrite !makefile_action_fits in Hplan
    by first [assumption | change (len "Makefile") with 8; lia
             | change (len "Makefile.win") with 12; lia].
  cbn [run act] in Hplan. rewrite Hn, Hwin in Hplan.
  rewrite parent_of_join in Hplan by (apply plain_literal; reflexivity).
  unfold is_dir in Hplan. rewrite Hroot in Hplan.
  apply effect_Ok in Hplan as ([] & w' & Hrun & Hfs). eauto.
Qed.

(** The root with a build file of its own. *)
Lemma create_makes_fills_in_witness :
  exists w',
    create_makes linux_cfg "/r" "demo" started = Ok (tt, w') /\
    files w' = <[join Linux "/r" "Makefile.win" := File (make_contents "demo")]>
                 (files started).
Proof.
  apply (create_makes_fills_in linux_cfg "/r" "demo" started).
  - vm_compute. discriminate.
  - vm_compute. discriminate.
  - reflexivity.
  - vm_compute. eauto.
  - reflexivity.
Defined.

(** X16. A run of [main] that returns ends with 0 where it was given no
    or one argument, whatever the steps came to, and with 1, the world
    untouched, for every other number of arguments. *)
Theorem main_exit_status cfg argv w code w' :
  main cfg argv w = Ok (code, w') ->
  (code = 0 /\ (length argv = 1 \/ length argv = 2)%nat) \/
  (code = 1 /\ w' = w /\ length argv <> 1%nat /\ length argv <> 2%nat).
Proof.
  unfold main.
  destruct (Z.eqb_spec (Z.of_nat (length argv)) 2) as [E2|E2];
    [|destruct (Z.eqb_spec (Z.of_nat (length argv)) 1) as [E1|E1]].
  - cbv zeta. intros H. apply bind_Ok_inv in H as (? & ? & _ & H).
    cbn [is_null] in H. apply scaffold_exit in H. left. split; [assumption | lia].
  - cbv zeta. intros H. apply scaffold_exit in H. left. split; [assumption | lia].
  - intros [= <- <-]. right. repeat split; lia.
Qed.

(** Two arguments. *)
Lemma main_exit_status_witness :
  (1 = 0 /\ (length ["projc"; "one"; "two"] = 1 \/ length ["projc"; "one"; "two"] = 2)%nat)
  \/ (1 = 1 /\ fresh "/r" = fresh "/r" /\
      length ["projc"; "one"; "two"] <> 1%nat /\
      length ["projc"; "one"; "two"] <> 2%nat).
Proof.
  apply (main_exit_status linux_cfg ["projc"; "one"; "two"] (fresh "/r")).
  reflexivity.
Defined.

(** X17. Without argument, started in a directory whose absolute form
    ends in a separator and a name, [main] scaffolds that directory with
    that name as the project. *)
Theorem main_names_project_after_directory cfg prog d name w :
  canon cfg (cstr (poke (junk cfg "dirname") 0 "."))
    = Some (join (platform cfg) d name) ->
  nul_free d -> nul_free name -> dir_part (sep (platform cfg)) name = None ->
  main cfg [prog] w = scaffold cfg (join (platform cfg) d name) name w.
Proof.
  intros Hcanon Hd Hname Hplain. unfold main. cbn [length].
  change (Z.of_nat 1 =? 2) with false. change (Z.of_nat 1 =? 1) with true.
  cbv beta iota zeta. unfold abspath. rewrite Hcanon. cbn [snd].
  assert (Hfree : nul_free (join (platform cfg) d name)).
  { unfold join. apply nul_free_append; [assumption|].
    split; [apply sep_not_nul | assumption]. }
  rewrite (cstr_nul_free _ Hfree).
  change (join (platform cfg) d name) with (d +:+ String (sep (platform cfg)) name) at 2.
  rewrite strslice_copies_last_segment
    by first [apply sep_not_nul | assumption].
  reflexivity.
Qed.

(** The directory [/home/alice/widget]. *)
Lemma main_names_project_after_directory_witness :
  main widget_cfg ["projc"] (fresh "/home/alice/widget")
  = scaffold widget_cfg (join Linux "/home/alice" "widget") "widget"
             (fresh "/home/alice/widget").
Proof.
  apply (main_names_project_after_directory widget_cfg "projc" "/home/alice" "widget").
  - reflexivity.
  - simpl. repeat split; discriminate.
  - simpl. repeat split; discriminate.
  - reflexivity.
Defined.

(** X18. Without argument [main] does not look at what [abspath] returns.
    Where the bytes [abspath] leaves in [dirname] hold no separator, as the
    [.] written there before the call when the path did not resolve and
    the array was left as it was, [strslice] cuts nothing and the run goes
    on in that directory, the project name being what the array [project]
    held before. *)
Theorem main_without_separator cfg prog dirname w :
  dirname = cstr (snd (abspath cfg (poke (junk cfg "dirname") 0 ".")
                               (cstr (poke (junk cfg "dirname") 0 ".")))) ->
  dir_part (sep (platform cfg)) dirname = None ->
  main cfg [prog] w = scaffold cfg dirname (cstr (junk cfg "project")) w.
Proof.
  intros -> Hplain. unfold main. cbn [length].
  change (Z.of_nat 1 =? 2) with false. change (Z.of_nat 1 =? 1) with true.
  cbv beta iota zeta.
  rewrite strslice_leaves_dest by first [apply sep_not_nul | assumption].
  reflexivity.
Qed.

(** A path that does not resolve: the run goes on in [.]. *)
Lemma main_without_separator_witness :
  main lost_cfg ["projc"] (fresh ".")
  = scaffold lost_cfg "." "old bytes" (fresh ".").
Proof.
  apply (main_without_separator lost_cfg "projc" ".").
  - reflexivity.
  - reflexivity.
Defined.

Example main_lost_directory_scaffolds :
  let run := main lost_cfg ["projc"] in
  outcome run (fresh ".") = Ok 0 /\
  is_Some (files (world_after run (fresh "."))
             !! join Windows (join Windows "." "lib") "old bytes.h") /\
  is_Some (files (world_after run (fresh ".")) !! join Windows "." "Makefile").
Proof. vm_compute. repeat split; eexists; reflexivity. Qed.

(** X19. [main] copies its argument into [project] without a test: an
    argument of [PATH_MAX] bytes or more is written past the end of the
    array. *)
Theorem main_long_argument cfg prog arg w :
  PATH_MAX (platform cfg) <= len arg ->
  main cfg [prog; arg] w = Fault BufferOverrun.
Proof.
  intros H. unfold main. cbn [length nth].
  change (Z.of_nat 2 =? 2) with true. cbv beta iota zeta.
  unfold bind, store.
  destruct (Z.leb_spec (len arg + 1) (PATH_MAX (platform cfg))); [lia | reflexivity].
Qed.

(** An argument of 260 bytes on Windows. *)
Lemma main_long_argument_witness :
  main windows_cfg ["projc"; replicate_byte 260 "a"] (fresh "C:")
  = Fault BufferOverrun.
Proof.
  apply (main_long_argument windows_cfg).
  vm_compute. discriminate.
Defined.

(** ** A run and the rest of the file system *)

Section Elsewhere.

Variable cfg : config.
Abbreviation OS := (platform cfg).

Lemma run_elsewhere l (fs fs' : gmap string node) path :
  Forall (fun a => target a <> Some path) l ->
  run OS l fs = Some fs' -> fs' !! path = fs !! path.
Proof.
  intros Hl. revert fs. induction Hl as [|a l Ha Hl IH]; simpl; intros fs.
  - intros [= <-]; reflexivity.
  - destruct (act OS a fs) as [fsa|] eqn:Ea; [|discriminate].
    intros Hrun. rewrite (IH _ Hrun). eapply act_elsewhere; eassumption.
Qed.

Lemma create_dir_action_below dirname destname t :
  target (create_dir_action cfg dirname destname) = Some t -> below OS dirname t.
Proof.
  unfold create_dir_action. destruct (_ <? _); [discriminate|].
  destruct (fits _ _); [|discriminate]. intros [= <-]. eexists. reflexivity.
Qed.

Lemma touch_action_below dirname dir name ext t :
  target (touch_action cfg (dirname +:+ str (sep OS) +:+ dir) name ext) = Some t ->
  below OS dirname t.
Proof.
  unfold touch_action. destruct (_ <? _); [discriminate|].
  destruct (fits _ _); [|discriminate]. intros [= <-].
  eexists. rewrite append_assoc. reflexivity.
Qed.

Lemma makefile_action_below makename project dirname t :
  target (makefile_action cfg makename project dirname) = Some t -> below OS dirname t.
Proof.
  unfold makefile_action. destruct (fits _ _); [|discriminate].
  destruct (fits _ _); [|discriminate]. intros [= <-]. eexists. reflexivity.
Qed.

Lemma plan_below dirname project :
  nul_free dirname ->
  Forall (fun a => forall t, target a = Some t -> below OS dirname t)
         (plan cfg dirname project).
Proof.
  intros HD. unfold plan. rewrite files_plan_joined by assumption. cbv zeta.
  unfold tree_plan, makes_plan. cbn [map].
  apply Forall_app; split; [|apply Forall_app; split];
    repeat (apply Forall_cons; split);
    try apply Forall_nil;
    lazymatch goal with
    | |- forall t, target (Pass _) = _ -> _ => discriminate
    | |- forall t, target (create_dir_action _ _ _) = _ -> _ =>
        intros t; apply create_dir_action_below
    | |- forall t, target (touch_action _ _ _ _) = _ -> _ =>
        intros t; apply touch_action_below
    | |- forall t, target (makefile_action _ _ _ _) = _ -> _ =>
        intros t; apply makefile_action_below
    | |- True => exact I
    end.
Qed.

End Elsewhere.

(** X20. A run for a project name that holds no separator (that of the
    platform, nor the slash, which Windows takes for one as well) and that
    ends without fault changes no path but those below its root: every
    other path, the root itself among them, is after the run what it was
    before. A name with a separator is left out: its files go where the
    name leads, as [x.h] beside the root for [../../x]. *)
Theorem scaffold_stays_below_root cfg dirname project w a w' path :
  nul_free dirname ->
  dir_part (sep (platform cfg)) project = None ->
  dir_part "/" project = None ->
  scaffold cfg dirname project w = Ok (a, w') ->
  ~ below (platform cfg) dirname path ->
  files w' !! path = files w !! path.
Proof.
  intros HD _ _ Hrun Hout.
  apply Ok_effect in Hrun. rewrite scaffold_plan in Hrun.
  eapply run_elsewhere; [|eassumption].
  eapply Forall_impl; [apply plan_below; assumption|].
  intros x Hx E. apply Hout. exact (Hx _ E).
Qed.

(** A path beside the root [/r]. *)
Lemma scaffold_stays_below_root_witness :
  files (world_after (scaffold linux_cfg "/r" "demo") (fresh "/r")) !! "/rr/lib"
  = files (fresh "/r") !! "/rr/lib".
Proof.
  apply (scaffold_stays_below_root linux_cfg "/r" "demo" (fresh "/r") 0).
  - simpl. repeat split; discriminate.
  - reflexivity.
  - reflexivity.
  - vm_compute. reflexivity.
  - intros [rest E]. discriminate E.
Defined.

(** X21. On a build whose string literals are not pooled no comparison
    of [touch] holds: header and sources alike are the one-line comment
    naming the stem of the file. *)
Theorem unpooled_files_are_stubs cfg dirname project w :
  fresh_root cfg dirname project (files w) ->
  pooling cfg = false ->
  exists w',
    scaffold cfg dirname project w = Ok (0, w') /\
    Forall (fun e => files w' !! join (platform cfg)
                       (join (platform cfg) dirname (fst (fst e))) (snd (fst e))
                     = Some (File ("/* Project " +:+ snd e +:+ " */")))
      [ ("lib", project +:+ ".h", project);
        ("lib", project +:+ ".c", project);
        ("src", project +:+ "_app.c", project +:+ "_app");
        ("test", project +:+ "_test.c", project +:+ "_test") ].
Proof.
  intros ready Hpool.
  destruct (scaffold_fresh cfg dirname project w ready) as (w' & Hrun & Hfs).
  exists w'. split; [exact Hrun|].
  rewrite Hfs. unfold add_all, layout. cbv zeta. cbn [fold_left fst snd].
  assert (Hstub : forall name i, (i < 2)%nat ->
            file_text cfg name (nth i file_ext no_literal)
            = "/* Project " +:+ name +:+ " */").
  { intros name i Hi. unfold file_text, literal_eqb. rewrite Hpool.
    destruct i as [|[|i]]; [reflexivity | reflexivity | lia]. }
  rewrite !Hstub by lia.
  repeat (apply Forall_cons; split); [| | | |apply Forall_nil; exact I];
    cbn [fst snd]; path_norm;
    rewrite ?lookup_insert_ne by path_neq; apply lookup_insert_eq.
Qed.

(** The header of [demo] on such a build. *)
Lemma unpooled_files_are_stubs_witness :
  exists w',
    scaffold linux_unpooled_cfg "/r" "demo" (fresh "/r") = Ok (0, w') /\
    files w' !! "/r/lib/demo.h" = Some (File "/* Project demo */").
Proof.
  destruct (unpooled_files_are_stubs linux_unpooled_cfg "/r" "demo" (fresh "/r"))
    as (w' & Hrun & Hfiles).
  - constructor.
    + simpl. repeat split; discriminate.
    + simpl. repeat split; discriminate.
    + reflexivity.
    + vm_compute. discriminate.
    + vm_compute. discriminate.
    + reflexivity.
    + apply (fresh_root_empty Linux).
  - reflexivity.
  - apply Forall_cons_1 in Hfiles as [H1 _]. exists w'. split; assumption.
Defined.

Lemma lookup_fill_ne k v (m : gmap string node) d :
  k <> d -> fill (k, v) m !! d = m !! d.
Proof.
  intros H. unfold fill. cbn [fst snd].
  destruct (m !! k); [reflexivity|]. by apply lookup_insert_ne.
Qed.

Lemma is_dir_fill_ne k v (m : gmap string node) d :
  k <> d -> is_dir (fill (k, v) m) d = is_dir m d.
Proof. intros H. unfold is_dir. by rewrite lookup_fill_ne. Qed.

Lemma is_dir_fill_dir (m : gmap string node) d :
  (forall c, m !! d <> Some (File c)) -> is_dir (fill (d, Dir) m) d = true.
Proof.
  intros H. unfold is_dir, fill. cbn [fst snd].
  destruct (m !! d) as [[|c]|] eqn:E.
  - rewrite E. reflexivity.
  - exfalso. eapply H. reflexivity.
  - rewrite lookup_insert_eq. reflexivity.
Qed.

Lemma act_EnsureDir_fill o path (fs : gmap string node) :
  parent_is_dir o fs path = true ->
  act o (EnsureDir path) fs = Some (fill (path, Dir) fs).
Proof.
  intros H. unfold act, fill. cbn [fst snd].
  destruct (fs !! path); [reflexivity|]. now rewrite H.
Qed.

Lemma act_EnsureFile_fill o path content (fs : gmap string node) :
  parent_is_dir o fs path = true ->
  act o (EnsureFile path content) fs = Some (fill (path, File content) fs).
Proof.
  intros H. unfold act, fill. cbn [fst snd].
  destruct (fs !! path); [reflexivity|]. now rewrite H.
Qed.

(** The plan of a run whose names fit the arrays, whatever is in the file
    system. *)
Lemma plan_of_fitting cfg dirname project :
  nul_free dirname -> nul_free project ->
  dir_part (sep (platform cfg)) project = None ->
  len dirname + len project + 14 <= PATH_MAX (platform cfg) ->
  len project <= 33 ->
  plan cfg dirname project =
  let o := platform cfg in
  map (fun e => match e.2 with
                | Dir => EnsureDir e.1
                | File c => EnsureFile e.1 c
                end) (firstn 4 (layout cfg dirname project))
  ++ [ Pass true; EnsureFile (join o (join o dirname "lib") (project +:+ ".h"))
                     (file_text cfg project (nth 0 file_ext no_literal));
       Pass true; EnsureFile (join o (join o dirname "lib") (project +:+ ".c"))
                     (file_text cfg project (nth 1 file_ext no_literal));
       Pass true; Pass true; Pass true;
       EnsureFile (join o (join o dirname "src") (project +:+ "_app" +:+ ".c"))
                  (file_text cfg (project +:+ "_app") (nth 1 file_ext no_literal));
       Pass true; Pass true; Pass true;
       EnsureFile (join o (join o dirname "test") (project +:+ "_test" +:+ ".c"))
                  (file_text cfg (project +:+ "_test") (nth 1 file_ext no_literal)) ]
  ++ [ EnsureFile (join o dirname "Makefile") (make_contents project);
       EnsureFile (join o dirname "Makefile.win") (make_contents project) ].
Proof.
  intros HD Hp Hplain Hfit Hmk.
  apply (plan_fresh cfg dirname project {[ dirname := Dir ]}).
  constructor; try assumption.
  - apply lookup_singleton_eq.
  - intros rest. apply lookup_singleton_ne. apply shorter_differs.
Qed.

(** X22. In a root where some of the scaffold is there already, no file
    standing where [lib], [src] or [test] go, a run ends with status 0,
    makes what is missing of the layout and leaves every entry that is there
    as it is, with its content. *)
Theorem scaffold_fills_in cfg dirname project w :
  nul_free dirname -> nul_free project ->
  dir_part (sep (platform cfg)) project = None ->
  len dirname + len project + 14 <= PATH_MAX (platform cfg) ->
  len project <= 33 ->
  files w !! dirname = Some Dir ->
  (forall d c, In d ["lib"; "src"; "test"] ->
               files w !! join (platform cfg) dirname d <> Some (File c)) ->
  exists w',
    scaffold cfg dirname project w = Ok (0, w') /\
    files w' = fill_all (layout cfg dirname project) (files w) /\
    files w ⊆ files w'.
Proof.
  intros HD Hp Hplain Hfit Hmk Hroot Hdirs.
  pose proof (scaffold_plan cfg dirname project w) as Hplan.
  rewrite plan_of_fitting in Hplan by assumption.
  unfold layout, fill_all in *. cbv zeta in Hplan.
  cbn [map firstn fold_left app run fst snd] in Hplan.
  assert (Hlib : forall c, files w !! join (platform cfg) dirname "lib" <> Some (File c))
    by (intros c; apply Hdirs; simpl; tauto).
  assert (Hsrc : forall c, files w !! join (platform cfg) dirname "src" <> Some (File c))
    by (intros c; apply Hdirs; simpl; tauto).
  assert (Htest : forall c, files w !! join (platform cfg) dirname "test" <> Some (File c))
    by (intros c; apply Hdirs; simpl; tauto).
  assert (Hname : forall s,
            dir_part (sep Windows) s = None -> dir_part (sep Linux) s = None ->
            dir_part (sep (platform cfg)) (project +:+ s) = None).
  { intros s H1 H2. apply dir_part_none_append; [assumption|].
    apply plain_literal; assumption. }
  revert Hplan.
  repeat (first
    [ rewrite act_EnsureDir_fill
    | rewrite act_EnsureFile_fill
    | change (act (platform cfg) (Pass true)) with (@Some (gmap string node)) ];
    cbv beta iota).
  1: { intros Hplan. apply effect_Ok in Hplan as (a & w' & Hrun & Hfs).
       pose proof (scaffold_exit _ _ _ _ _ _ Hrun) as ->.
       exists w'. split; [exact Hrun|]. split; [exact Hfs|].
       apply Ok_effect in Hrun. rewrite scaffold_plan in Hrun.
       eapply run_grows; eassumption. }
  all: first
    [ rewrite parent_of_join by (apply plain_literal; reflexivity)
    | rewrite parent_of_join by (apply Hname; reflexivity) ].
  all: revert Hlib Hsrc Htest Hroot; path_norm; intros Hlib Hsrc Htest Hroot.
  all: rewrite ?is_dir_fill_ne by path_neq.
  all: first
    [ unfold is_dir; rewrite Hroot; reflexivity
    | apply is_dir_fill_dir; intros c; rewrite ?lookup_fill_ne by path_neq;
      first [apply Hlib | apply Hsrc | apply Htest] ].
Qed.

(** The root with a header and a build file of its own. *)
Lemma scaffold_fills_in_witness :
  exists w',
    scaffold linux_cfg "/r" "demo" started = Ok (0, w') /\
    files w' = fill_all (layout linux_cfg "/r" "demo") (files started) /\
    files started ⊆ files w'.
Proof.
  apply (scaffold_fills_in linux_cfg "/r" "demo" started).
  - simpl. repeat split; discriminate.
  - simpl. repeat split; discriminate.
  - reflexivity.
  - vm_compute. discriminate.
  - vm_compute. discriminate.
  - reflexivity.
  - intros d c [<-|[<-|[<-|[]]]]; vm_compute; discriminate.
Defined.

(** After it the header and the build file hold the text they held, and
    what was missing is there. *)
Example started_root_filled_in :
  let w' := world_after (scaffold linux_cfg "/r" "demo") started in
  files w' !! "/r/lib/demo.h" = Some (File "mine") /\
  files w' !! "/r/Makefile" = Some (File "mine") /\
  files w' !! "/r/Makefile.win" = Some (File (make_contents "demo")) /\
  files w' !! "/r/include" = Some Dir.
Proof. repeat split; vm_compute; reflexivity. Qed.

